(** * fpgaperf.py: toolchain adapters and run orchestrator

    A shallow embedding of [fpgaperf.py]: the Lattice iCEcube2 and Radiant
    adapters, the executable probe [which], the capability reports, and the
    orchestrator [run] with its constraint-file lookup.

    Python exceptions are an explicit error type, the host (process
    environment, file system, spawned processes) is an explicit world threaded
    through a state-and-error monad, and Python dictionaries that are shared
    by reference live in a heap of objects. *)

From Stdlib Require Import ZArith String Ascii List Bool.
From stdpp Require Import gmap strings list sorting.

Local Open Scope string_scope.

(** ** Python string operations used by the program *)

Module PyStr.

(** A character of a modelled string is a code point below 256.
    [str.isspace] on these: TAB, LF, VT, FF, CR, the four separators
    FS GS RS US, SPACE, NEXT LINE (U+0085) and NO-BREAK SPACE (U+00A0).
    This is the white space of [str.split()] and [str.strip()]. *)
Definition is_space (c : ascii) : bool :=
  let n := nat_of_ascii c in
  ((9 <=? n)%nat && (n <=? 13)%nat) || ((28 <=? n)%nat && (n <=? 32)%nat)
  || (n =? 133)%nat || (n =? 160)%nat.

(** [sep.join(l)] *)
Definition join (sep : string) (l : list string) : string :=
  String.concat sep l.

(** [s.find(p) == 0]: [p] occurs in [s] and its lowest index is 0. *)
Definition find_at_0 (p s : string) : bool := String.prefix p s.

(** [s.split(c)] for a one-character separator: empty fields are kept,
    and the empty string gives one empty field. *)
Fixpoint split_on (c : ascii) (s : string) : list string :=
  match s with
  | EmptyString => [EmptyString]
  | String a s' =>
      if Ascii.eqb a c then EmptyString :: split_on c s'
      else match split_on c s' with
           | [] => [String a EmptyString]
           | w :: ws => String a w :: ws
           end
  end.

(** [s.split()]: fields are maximal runs of non-space characters; no
    empty field is produced.  [cur] is the field being read, if any. *)
Fixpoint split_ws_go (cur : option string) (s : string) : list string :=
  match s with
  | EmptyString =>
      match cur with Some w => [String.rev w] | None => [] end
  | String a s' =>
      if is_space a then
        match cur with
        | Some w => String.rev w :: split_ws_go None s'
        | None => split_ws_go None s'
        end
      else
        split_ws_go (Some (String a (default EmptyString cur))) s'
  end.

Definition split_ws (s : string) : list string := split_ws_go None s.

(** [s.lstrip()], [s.rstrip()], [s.strip()] *)
Fixpoint lstrip (s : string) : string :=
  match s with
  | EmptyString => EmptyString
  | String a s' => if is_space a then lstrip s' else s
  end.

Definition rstrip (s : string) : string :=
  String.rev (lstrip (String.rev s)).

Definition strip (s : string) : string := rstrip (lstrip s).

(** Truth value of a string: only the empty string is false. *)
Definition truthy (s : string) : bool :=
  match s with EmptyString => false | _ => true end.

(** [s.rstrip('/')] *)
Fixpoint lstrip_slash (s : string) : string :=
  match s with
  | EmptyString => EmptyString
  | String a s' => if Ascii.eqb a "/" then lstrip_slash s' else s
  end.

Definition rstrip_slash (s : string) : string :=
  String.rev (lstrip_slash (String.rev s)).

(** [s.endswith('/')] *)
Definition ends_with_slash (s : string) : bool :=
  match String.rev s with
  | String a _ => Ascii.eqb a "/"
  | EmptyString => false
  end.

End PyStr.

(** ** [os.path] on POSIX path strings *)

Module OsPath.

(** Scan for the last ['/']: [head] is the text up to and including it,
    [tail] what follows; [acc] holds (reversed) what was read since the
    last slash was seen. *)
Fixpoint split_go (head acc : string) (s : string) : string * string :=
  match s with
  | EmptyString => (head, String.rev acc)
  | String a s' =>
      if Ascii.eqb a "/"
      then split_go (head +:+ String.rev acc +:+ "/") EmptyString s'
      else split_go head (String a acc) s'
  end.

(** [os.path.split(p)]: the head loses its trailing slashes unless it
    consists of slashes only. *)
Definition split (p : string) : string * string :=
  let '(head, tail) := split_go EmptyString EmptyString p in
  let head' :=
    match PyStr.lstrip_slash head with
    | EmptyString => head
    | _ => PyStr.rstrip_slash head
    end in
  (head', tail).

(** [os.path.join(a, b)] *)
Definition join (a b : string) : string :=
  if String.prefix "/" b then b
  else if negb (PyStr.truthy a) || PyStr.ends_with_slash a then a +:+ b
  else a +:+ "/" +:+ b.

End OsPath.

(** ** Exceptions, the host, and the monad of Python code *)

(** The exceptions the modelled code can raise.  [NameError] is what the
    use of a name that the module does not bind raises;
    [CalledProcessError] is what a failed external command raises;
    [Foreign] stands for whatever a collaborator outside this file
    raises. *)
Inductive exn :=
| AssertionError
| FileNotFoundError (path : string)
| IsADirectoryError (path : string)
| KeyError (key : string)
| IndexError
| TypeError
| NameError (name : string)
| CalledProcessError (prog : string)
| Foreign (name : string).

(** A file-system entry: a directory, or a regular text file with its
    execute permission and its lines (as iteration over the open file
    yields them). *)
Inductive node :=
| Dir
| File (executable : bool) (lines : list string).

(** What a run does to the outside, in order. *)
Inductive event :=
| StageOpen (name : string)
| StageClose (name : string)
| Spawn (prog args : string) (env : option (gmap string string))
| Construct (toolchain : string).

(** Python [dict] objects with string keys and values live in [heap] and
    are referred to by address; [os.environ] is the object at address 0. *)
Record World := mkWorld {
  heap : gmap nat (gmap string string);
  next : nat;
  fs : gmap string node;
  trace : list event;
}.

Definition os_environ : nat := 0.

Definition M (A : Type) : Type := World -> (exn + A) * World.

Definition ret {A} (a : A) : M A := fun w => (inr a, w).

Definition raise {A} (e : exn) : M A := fun w => (inl e, w).

Definition bind {A B} (m : M A) (k : A -> M B) : M B :=
  fun w =>
    match m w with
    | (inl e, w') => (inl e, w')
    | (inr a, w') => k a w'
    end.

Notation "'let*' x := m 'in' k" := (bind m (fun x => k))
  (at level 10, x name, m at level 100, k at level 200).
Notation "'let*' ' p := m 'in' k" :=
  (bind m (fun x => match x with p => k end))
  (at level 10, p pattern, m at level 100, k at level 200).
Notation "'do*' m 'in' k" := (bind m (fun _ => k))
  (at level 10, m at level 100, k at level 200).

(** [assert b] *)
Definition py_assert (b : bool) : M unit :=
  if b then ret tt else raise AssertionError.

Definition emit (e : event) : M unit :=
  fun w => (inr tt, mkWorld (heap w) (next w) (fs w) (trace w ++ [e])).

(** [d.copy()]: a new object with the same items. *)
Definition dict_copy (l : nat) : M nat :=
  fun w =>
    let l' := S (next w) in
    (inr l',
     mkWorld (<[l' := default ∅ (heap w !! l)]> (heap w)) l' (fs w) (trace w)).

(** [d[k] = v] *)
Definition dict_setitem (l : nat) (k v : string) : M unit :=
  fun w =>
    (inr tt,
     mkWorld (<[l := <[k := v]> (default ∅ (heap w !! l))]> (heap w))
             (next w) (fs w) (trace w)).

(** [d[k]] *)
Definition dict_getitem (l : nat) (k : string) : M string :=
  fun w =>
    match default ∅ (heap w !! l) !! k with
    | Some v => (inr v, w)
    | None => (inl (KeyError k), w)
    end.

(** The items of the object at [l]. *)
Definition dict_read (l : nat) : M (gmap string string) :=
  fun w => (inr (default ∅ (heap w !! l)), w).

(** [os.path.exists], [os.path.isfile], [os.access(p, os.X_OK)] *)
Definition os_path_exists (p : string) : M bool :=
  fun w => (inr (match fs w !! p with Some _ => true | None => false end), w).

Definition os_path_isfile (p : string) : M bool :=
  fun w =>
    (inr (match fs w !! p with Some (File _ _) => true | _ => false end), w).

Definition os_access_x (p : string) : M bool :=
  fun w =>
    (inr (match fs w !! p with
          | Some (File x _) => x
          | Some Dir => true
          | None => false
          end), w).

(** [open(p)] for reading, giving the lines of the file. *)
Definition py_open (p : string) : M (list string) :=
  fun w =>
    match fs w !! p with
    | Some (File _ ls) => (inr ls, w)
    | Some Dir => (inl (IsADirectoryError p), w)
    | None => (inl (FileNotFoundError p), w)
    end.

(** [try: body  except FileNotFoundError: pass], the body's value kept
    when it returns and [dflt] standing for the variable left untouched. *)
Definition except_FileNotFoundError {A} (body : M A) (dflt : A) : M A :=
  fun w =>
    match body w with
    | (inl (FileNotFoundError _), w') => (inr dflt, w')
    | r => r
    end.

(** ** Module-level constants, fixed when the module is loaded *)

Record Globals := mkGlobals {
  root_dir : string;
  ICECUBEDIR_DEFAULT : string;
  RADIANTDIR_DEFAULT : string;
}.

(** [file_dir] is [os.path.dirname(os.path.abspath(__file__))]; the two
    class attributes are [os.getenv(name, default)] at load time. *)
Definition load_module (file_dir : string) (environ : gmap string string)
  : Globals :=
  {| root_dir := file_dir;
     ICECUBEDIR_DEFAULT :=
       default "/opt/lscc/iCEcube2.2017.08" (environ !! "ICECUBEDIR");
     RADIANTDIR_DEFAULT :=
       default "/opt/lscc/radiant/1.0" (environ !! "RADIANTDIR") |}.

Definition project_dir (g : Globals) : string := root_dir g +:+ "/project".
Definition src_dir (g : Globals) : string := root_dir g +:+ "/src".

(** ** [which] and [have_exec] *)

Definition is_exe (fpath : string) : M bool :=
  let* f := os_path_isfile fpath in
  if f then os_access_x fpath else ret false.

(** The [for path in ...] loop of [which]. *)
Fixpoint which_loop (program : string) (paths : list string)
  : M (option string) :=
  match paths with
  | [] => ret None
  | path :: rest =>
      let exe_file := OsPath.join path program in
      let* x := is_exe exe_file in
      if x then ret (Some exe_file) else which_loop program rest
  end.

Definition which (program : string) : M (option string) :=
  let '(fpath, fname) := OsPath.split program in
  if PyStr.truthy fpath then
    let* x := is_exe program in
    if x then ret (Some program) else ret None
  else
    let* PATH := dict_getitem os_environ "PATH" in
    which_loop program (PyStr.split_on ":" PATH).

Definition have_exec (mybin : string) : M bool :=
  let* r := which mybin in
  ret (match r with Some _ => true | None => false end).

(** ** Adapter classes and adapter objects *)

(** Classes imported from [icestorm], [vivado] and [symbiflow]. *)
Inductive Imported := Vivado | VivadoYosys | Arachne | VPR | Nextpnr.

(** The concrete subclasses of [Icecube2] and of [Radiant]. *)
Inductive Icecube2 := Icecube2Synpro | Icecube2LSE | Icecube2Yosys.
Inductive Radiant := RadiantLSE | RadiantSynpro | RadiantYosys.

Inductive cls :=
| CImported (c : Imported)
| CIcecube2 (c : Icecube2)
| CRadiant (c : Radiant).

(** Instance attributes of an adapter object. *)
Record Adapter := mkAdapter {
  toolchain : string;
  verbose : bool;
  strategy : option string;
  seed : option Z;
  carry : option bool;
  pcf : option string;
  sdc : option string;
  xdc : option string;
  build : option string;
  family : string;
  device : string;
  package : string;
  project_name : string;
  srcs : list string;
  top : string;
  out_dir : string;
  icecubedir : string;
  radiantdir : string;
}.

(** A loaded project description ([project/<name>.json]). *)
Record ProjectDesc := mkProjectDesc {
  pd_name : string;
  pd_srcs : list string;
  pd_top : string;
}.

(** ** Collaborators that are not defined in this file

    [fpgaperf.py] calls helpers, library functions and external programs
    whose code is elsewhere; the model takes them as parameters. *)
Record Deps := mkDeps {
  (** a frequency value, and a resource-usage mapping *)
  freq : Type;
  usage : Type;
  (** an external process: program, argument string, the environment it
      runs in and the files before; whether it exits with status zero, and
      the files after *)
  spawn_process :
    string -> string -> gmap string string -> gmap string node ->
    bool * gmap string node;
  (** [icetime_parse(f)], [icebox_stat(fn, out_dir)] *)
  icetime_parse : list string -> exn + gmap string freq;
  icebox_stat : string -> string -> M usage;
  (** [os.path.realpath], [json.load] *)
  realpath : string -> string;
  json_load : list string -> exn + ProjectDesc;
  (** the output directory [Toolchain.project] picks when none is given *)
  auto_out_dir : option string -> Adapter -> string;
  (** the imported adapter classes and [Toolchain.write_metadata]; their
      capability query only reads the host *)
  new_imported : Imported -> string -> M Adapter;
  imported_run : Imported -> Adapter -> M unit;
  imported_max_freq : Imported -> Adapter -> M freq;
  imported_resources : Imported -> Adapter -> M usage;
  imported_check_env : Imported -> World -> exn + list (string * bool);
  write_metadata : Adapter -> M unit;
}.

Definition lift {A} (r : exn + A) : M A := fun w => (r, w).

(** Truth value of an optional string ([None] and [''] are false). *)
Definition truthy_opt (s : option string) : bool :=
  match s with Some s => PyStr.truthy s | None => false end.

(** Modelled from the spec: [utils.Timed], the timing harness, whose code
    is not in this file.  A scoped acquisition: the stage opens on entry
    and closes on exit, also on the error exit path, and an exception of
    the body propagates unchanged.  The elapsed time of the stage is the
    span between its two events. *)
Definition Timed {A} (name : string) (body : M A) : M A :=
  fun w =>
    let '(r, w') := (do* emit (StageOpen name) in body) w in
    (r, mkWorld (heap w') (next w') (fs w') (trace w' ++ [StageClose name])).

(** Modelled from the spec: [Toolchain.cmd], the command runner, whose
    code is not in this file.  It executes one external process with the
    given argument string; the process runs in the environment passed as
    [env], or in the ambient one when none is passed; a non-zero exit
    status is fatal. *)
Definition Toolchain_cmd (D : Deps) (prog args : string) (env : option nat)
  : M unit :=
  let* passed :=
    match env with
    | Some l => let* d := dict_read l in ret (Some d)
    | None => ret None
    end in
  let* ambient := dict_read os_environ in
  do* emit (Spawn prog args passed) in
  fun w =>
    let '(ok, fs') :=
      spawn_process D prog args (default ambient passed) (fs w) in
    (if ok then inr tt else inl (CalledProcessError prog),
     mkWorld (heap w) (next w) fs' (trace w)).

(** What the configure step raises for a target the flow does not
    support; the class belongs to code outside this file. *)
Definition UnsupportedTargetError : exn := Foreign "UnsupportedTargetError".

(** The list literal in the assertion of [Radiant.run]. *)
Definition Radiant_targets : list (string * string) :=
  [("up3k", "uwg30"); ("up5k", "uwg30"); ("up5k", "sg48")].

(** [(device, package) in targets] *)
Definition target_in (targets : list (string * string))
    (device' package' : string) : bool :=
  existsb (fun p => String.eqb device' (fst p) && String.eqb package' (snd p))
          targets.

(** The (device, package) support list a class declares, if it declares
    one.  The Radiant flow has the list of [Radiant.run]; no other class
    of this file has one, and those of the imported classes are not
    visible from this file. *)
Definition declared_targets (c : cls) : option (list (string * string)) :=
  match c with
  | CRadiant _ => Some Radiant_targets
  | CIcecube2 _ | CImported _ => None
  end.

(** Modelled from the spec: [Toolchain.project], the configure step, whose
    code is not in this file.  It validates that the requested (device,
    package) pair is supported by the flow and fails with
    [UnsupportedTargetError] if it is not; otherwise it stores the target
    and the project on the adapter.  It is a state mutation of the
    adapter, with no external effect. *)
Definition Toolchain_project (D : Deps) (c : cls) (self : Adapter)
    (pd : ProjectDesc) (family' device' package' : string)
    (out_dir' out_prefix : option string) : M Adapter :=
  let stored :=
    mkAdapter (toolchain self) (verbose self) (strategy self) (seed self)
      (carry self) (pcf self) (sdc self) (xdc self) (build self)
      family' device' package' (pd_name pd) (pd_srcs pd) (pd_top pd)
      (out_dir self) (icecubedir self) (radiantdir self) in
  let configured :=
    mkAdapter (toolchain self) (verbose self) (strategy self) (seed self)
      (carry self) (pcf self) (sdc self) (xdc self) (build self)
      family' device' package' (pd_name pd) (pd_srcs pd) (pd_top pd)
      (match out_dir' with
       | Some d => d
       | None => auto_out_dir D out_prefix stored
       end)
      (icecubedir self) (radiantdir self) in
  match declared_targets c with
  | Some targets =>
      if target_in targets device' package'
      then ret configured
      else raise UnsupportedTargetError
  | None => ret configured
  end.

(** [yosys_ver()]: the module neither defines nor imports this name (of
    [icestorm] it imports [Nextpnr] and [Arachne] only), so the call
    raises [NameError]. *)
Definition yosys_ver : M (option string) := raise (NameError "yosys_ver").

(** ** [class Icecube2] *)

Definition Icecube2_syn (c : Icecube2) : string :=
  match c with
  | Icecube2Synpro => "synpro"
  | Icecube2LSE => "lse"
  | Icecube2Yosys => "yosys-synpro"
  end.

(** [Icecube2.run]; the [print] of the top module goes to standard
    output, which the world does not record. *)
Definition Icecube2_run (D : Deps) (g : Globals) (c : Icecube2)
    (self : Adapter) : M unit :=
  do* Timed "bit-all" (
    let* env := dict_copy os_environ in
    do* dict_setitem env "SRCS" (PyStr.join " " (srcs self)) in
    do* dict_setitem env "TOP" (top self) in
    do* dict_setitem env "ICECUBEDIR" (icecubedir self) in
    do* dict_setitem env "ICEDEV" (device self +:+ "-" +:+ package self) in
    let args := "--syn " +:+ Icecube2_syn c in
    let args :=
      if truthy_opt (strategy self)
      then args +:+ " --strategy " +:+ default "" (strategy self)
      else args in
    do* Toolchain_cmd D (root_dir g +:+ "/icecubed.sh") args (Some env) in
    Toolchain_cmd D "iceunpack" "my.bin my.asc" None) in
  Toolchain_cmd D "icetime" ("-tmd " +:+ device self +:+ " my.asc") None.

Definition dict_lookup {A} (d : gmap string A) (k : string) : M A :=
  match d !! k with
  | Some v => ret v
  | None => raise (KeyError k)
  end.

Definition Icecube2_max_freq (D : Deps) (self : Adapter) : M (freq D) :=
  let* f := py_open (out_dir self +:+ "/icetime.txt") in
  let* d := lift (icetime_parse D f) in
  dict_lookup d "max_freq".

Definition Icecube2_resources (D : Deps) (self : Adapter) : M (usage D) :=
  icebox_stat D "my.asc" (out_dir self).

(** [l[1]] *)
Definition item_1 (l : list string) : exn + string :=
  match l with
  | _ :: x :: _ => inr x
  | _ => inl IndexError
  end.

(** [Icecube2.asc_ver]: the first line that starts with the marker gives
    the version; running off the end of the file hits [assert 0]. *)
Fixpoint Icecube2_asc_ver (f : list string) : exn + string :=
  match f with
  | [] => inl AssertionError
  | l :: f' =>
      if PyStr.find_at_0 "iCEcube2" l
      then match item_1 (PyStr.split_ws l) with
           | inr v => inr (PyStr.strip v)
           | inl e => inl e
           end
      else Icecube2_asc_ver f'
  end.

(** The [try] block of [Icecube2.versions]: the value of [asc_ver]
    after it. *)
Definition Icecube2_versions_asc (self : Adapter) : M (option string) :=
  except_FileNotFoundError
    (let* ascf := py_open (out_dir self +:+ "/my.asc") in
     let* v := lift (Icecube2_asc_ver ascf) in
     ret (Some v))
    None.

Definition Icecube2_versions (self : Adapter)
  : M (list (string * option string)) :=
  let* asc_ver := Icecube2_versions_asc self in
  let* y := yosys_ver in
  ret [("yosys", y); ("icecube2", asc_ver)].

Definition Icecube2Synpro_check_env (g : Globals) : M (list (string * bool)) :=
  let* d := os_path_exists (ICECUBEDIR_DEFAULT g) in
  let* i := have_exec "icetime" in
  ret [("ICECUBEDIR", d); ("icetime", i)].

Definition Icecube2LSE_check_env (g : Globals) : M (list (string * bool)) :=
  let* d := os_path_exists (ICECUBEDIR_DEFAULT g) in
  let* i := have_exec "icetime" in
  ret [("ICECUBEDIR", d); ("icetime", i)].

Definition Icecube2Yosys_check_env (g : Globals) : M (list (string * bool)) :=
  let* y := have_exec "yosys" in
  let* d := os_path_exists (ICECUBEDIR_DEFAULT g) in
  let* i := have_exec "icetime" in
  ret [("yosys", y); ("ICECUBEDIR", d); ("icetime", i)].

(** ** [class Radiant] *)

Definition Radiant_syn (c : Radiant) : string :=
  match c with
  | RadiantLSE => "lse"
  | RadiantSynpro => "synplify"
  | RadiantYosys => "yosys-synpro"
  end.

(** [(device, package) in Radiant_targets] *)
Definition Radiant_supported (device' package' : string) : bool :=
  existsb (fun p => String.eqb device' (fst p) && String.eqb package' (snd p))
          Radiant_targets.

Definition Radiant_run (D : Deps) (g : Globals) (c : Radiant)
    (self : Adapter) : M unit :=
  do* py_assert (Radiant_supported (device self) (package self)) in
  do* Timed "bit-all" (
    let* env := dict_copy os_environ in
    do* dict_setitem env "SRCS" (PyStr.join " " (srcs self)) in
    do* dict_setitem env "TOP" (top self) in
    do* dict_setitem env "RADIANTDIR" (radiantdir self) in
    do* dict_setitem env "RADDEV" (device self +:+ "-" +:+ package self) in
    let syn := Radiant_syn c in
    let args := "--syn " +:+ syn in
    let args :=
      if truthy_opt (strategy self)
      then args +:+ " --strategy " +:+ default "" (strategy self)
      else args in
    do* Toolchain_cmd D (root_dir g +:+ "/radiant.sh") args (Some env) in
    Toolchain_cmd D "iceunpack" "my.bin my.asc" None) in
  Toolchain_cmd D "icetime" "-tmd up5k my.asc" None.

Definition Radiant_max_freq (D : Deps) (self : Adapter) : M (freq D) :=
  let* f := py_open (out_dir self +:+ "/icetime.txt") in
  let* d := lift (icetime_parse D f) in
  dict_lookup d "max_freq".

Definition Radiant_resources (D : Deps) (self : Adapter) : M (usage D) :=
  icebox_stat D "my.asc" (out_dir self).

(** The loop of [Radiant.radiant_ver] over the lines of the opened file. *)
Fixpoint radiant_ver_lines (f : list string) : exn + string :=
  match f with
  | [] => inl AssertionError
  | l :: f' =>
      if PyStr.find_at_0 "ProductType" l
      then match item_1 (PyStr.split_on "=" l) with
           | inr v => inr (PyStr.strip v)
           | inl e => inl e
           end
      else radiant_ver_lines f'
  end.

Definition Radiant_radiant_ver (self : Adapter) : M string :=
  let* f := py_open (radiantdir self +:+ "/data/ispsys.ini") in
  lift (radiant_ver_lines f).

Definition Radiant_versions (self : Adapter)
  : M (list (string * option string)) :=
  let* y := yosys_ver in
  let* r := Radiant_radiant_ver self in
  ret [("yosys", y); ("radiant", Some r)].

Definition Radiant_check_env (g : Globals) : M (list (string * bool)) :=
  let* d := os_path_exists (RADIANTDIR_DEFAULT g) in
  let* u := have_exec "iceunpack" in
  let* i := have_exec "icetime" in
  ret [("RADIANTDIR", d); ("iceunpack", u); ("icetime", i)].

(** ** Method dispatch on the class of an adapter *)

Definition adapter_run (D : Deps) (g : Globals) (c : cls) (t : Adapter)
  : M unit :=
  match c with
  | CImported i => imported_run D i t
  | CIcecube2 i => Icecube2_run D g i t
  | CRadiant r => Radiant_run D g r t
  end.

Definition adapter_max_freq (D : Deps) (c : cls) (t : Adapter) : M (freq D) :=
  match c with
  | CImported i => imported_max_freq D i t
  | CIcecube2 _ => Icecube2_max_freq D t
  | CRadiant _ => Radiant_max_freq D t
  end.

Definition adapter_resources (D : Deps) (c : cls) (t : Adapter)
  : M (usage D) :=
  match c with
  | CImported i => imported_resources D i t
  | CIcecube2 _ => Icecube2_resources D t
  | CRadiant _ => Radiant_resources D t
  end.

Definition adapter_versions (c : cls) (t : Adapter)
  : option (M (list (string * option string))) :=
  match c with
  | CImported _ => None
  | CIcecube2 _ => Some (Icecube2_versions t)
  | CRadiant _ => Some (Radiant_versions t)
  end.

(** [tc.check_env()]; [Radiant]'s subclasses inherit the static method. *)
Definition check_env_of (D : Deps) (g : Globals) (c : cls)
  : M (list (string * bool)) :=
  match c with
  | CImported i => fun w => (imported_check_env D i w, w)
  | CIcecube2 Icecube2Synpro => Icecube2Synpro_check_env g
  | CIcecube2 Icecube2LSE => Icecube2LSE_check_env g
  | CIcecube2 Icecube2Yosys => Icecube2Yosys_check_env g
  | CRadiant _ => Radiant_check_env g
  end.

(** ** The registry and the orchestrator *)

(** The dictionary [toolchains], in the order of its literal. *)
Definition toolchains : list (string * cls) :=
  [ ("vivado", CImported Vivado);
    ("vivado-yosys", CImported VivadoYosys);
    ("arachne", CImported Arachne);
    ("vpr", CImported VPR);
    ("nextpnr", CImported Nextpnr);
    ("icecube2-synpro", CIcecube2 Icecube2Synpro);
    ("icecube2-lse", CIcecube2 Icecube2LSE);
    ("icecube2-yosys", CIcecube2 Icecube2Yosys);
    ("radiant-synpro", CRadiant RadiantSynpro);
    ("radiant-lse", CRadiant RadiantLSE) ].

(** [toolchains[name]] *)
Fixpoint registry_lookup (name : string) (l : list (string * cls))
  : option cls :=
  match l with
  | [] => None
  | (k, c) :: l' => if String.eqb name k then Some c else registry_lookup name l'
  end.

(** [toolchains[toolchain](root_dir)]: the class is called with one
    positional argument.  The [__init__] methods of the classes defined in
    this file take no argument besides [self], so the call raises
    [TypeError] for them. *)
Definition construct (D : Deps) (g : Globals) (name : string)
  : M (cls * Adapter) :=
  match registry_lookup name toolchains with
  | None => raise (KeyError name)
  | Some c =>
      do* emit (Construct name) in
      match c with
      | CImported i =>
          let* t := new_imported D i (root_dir g) in ret (c, t)
      | CIcecube2 _ | CRadiant _ => raise TypeError
      end
  end.

Definition get_constraint (g : Globals)
    (project family' device' package' toolchain' extension : string)
  : M (option string) :=
  let path := src_dir g +:+ "/"
              +:+ project +:+ "/"
              +:+ family' +:+ "/"
              +:+ device' +:+ package' +:+ "/"
              +:+ toolchain' +:+ "." +:+ extension in
  let* e := os_path_exists path in
  if e then ret (Some path) else ret None.

Definition get_pcf g project family' device' package' toolchain' :=
  get_constraint g project family' device' package' toolchain' "pcf".

Definition get_sdc g project family' device' package' toolchain' :=
  get_constraint g project family' device' package' toolchain' "sdc".

Definition get_xdc g project family' device' package' toolchain' :=
  get_constraint g project family' device' package' toolchain' "xdc".

Definition get_project (D : Deps) (g : Globals) (name : string)
  : M ProjectDesc :=
  let project_fn := project_dir g +:+ "/" +:+ name +:+ ".json" in
  let* f := py_open project_fn in
  lift (json_load D f).

(** [print_stats]: the tables go to standard output, which the world does
    not record; what is left is the two queries made on the adapter, in
    the order of the source, either of which may raise. *)
Definition print_stats (D : Deps) (c : cls) (t : Adapter) : M unit :=
  let* _ := adapter_max_freq D c t in
  let* _ := adapter_resources D c t in
  ret tt.

(** [assert x is not None], giving the value that is then known to be
    present. *)
Definition assert_not_None {A} (x : option A) : M A :=
  match x with
  | Some a => ret a
  | None => raise AssertionError
  end.

(** [os.path.realpath(p)], which raises [TypeError] on [None]. *)
Definition os_path_realpath (D : Deps) (p : option string) : M string :=
  match p with
  | Some s => ret (realpath D s)
  | None => raise TypeError
  end.

(** [os.path.realpath(p) if c else None] *)
Definition realpath_if (D : Deps) (c p : option string) : M (option string) :=
  if truthy_opt c
  then let* r := os_path_realpath D p in ret (Some r)
  else ret None.

Definition set_options (t : Adapter) (verbose' : bool)
    (strategy' : option string) (seed' : option Z) (carry' : option bool)
  : Adapter :=
  mkAdapter (toolchain t) verbose' strategy' seed' carry'
    (pcf t) (sdc t) (xdc t) (build t) (family t) (device t) (package t)
    (project_name t) (srcs t) (top t) (out_dir t) (icecubedir t)
    (radiantdir t).

Definition set_constraints (t : Adapter) (pcf' sdc' xdc' : option string)
    (build' : option string) : Adapter :=
  mkAdapter (toolchain t) (verbose t) (strategy t) (seed t) (carry t)
    pcf' sdc' xdc' build' (family t) (device t) (package t)
    (project_name t) (srcs t) (top t) (out_dir t) (icecubedir t)
    (radiantdir t).

(** The assertions at the head of [run]. *)
Definition run_entry (family' device' package' toolchain' project
                      : option string) (seed' : option Z)
  : M (string * string * string * string * string) :=
  do* py_assert (match family' with
                 | Some f => String.eqb f "ice40" || String.eqb f "xc7"
                 | None => false
                 end) in
  let* dev := assert_not_None device' in
  let* pkg := assert_not_None package' in
  let* tc := assert_not_None toolchain' in
  let* prj := assert_not_None project in
  do* py_assert (match seed' with
                 | None => true
                 | Some s => (1 <=? s)%Z && (s <=? 2147483647)%Z
                 end) in
  ret (default "" family', dev, pkg, tc, prj).

(** The constraint files of [run]: the three lookups, then the three
    assignments to the adapter. *)
Definition run_constraints (D : Deps) (g : Globals)
    (project family' device' package' toolchain' : string)
  : M (option string * option string * option string) :=
  let* pcf' := get_pcf g project family' device' package' toolchain' in
  let* sdc' := get_sdc g project family' device' package' toolchain' in
  let* xdc' := get_xdc g project family' device' package' toolchain' in
  let* t_pcf := realpath_if D pcf' pcf' in
  let* t_sdc := realpath_if D sdc' sdc' in
  let* t_xdc := realpath_if D sdc' xdc' in
  ret (t_pcf, t_sdc, t_xdc).

Definition run (D : Deps) (g : Globals)
    (family' device' package' toolchain' project : option string)
    (out_dir' out_prefix : option string) (verbose' : bool)
    (strategy' : option string) (seed' : option Z) (carry' : option bool)
    (build' : option string) : M unit :=
  let* '(fam, dev, pkg, tc, prj) :=
    run_entry family' device' package' toolchain' project seed' in
  let* '(c, t) := construct D g tc in
  let t := set_options t verbose' strategy' seed' carry' in
  let* '(t_pcf, t_sdc, t_xdc) := run_constraints D g prj fam dev pkg tc in
  let t := set_constraints t t_pcf t_sdc t_xdc build' in
  let* pd := get_project D g prj in
  let* t := Toolchain_project D c t pd fam dev pkg out_dir' out_prefix in
  do* adapter_run D g c t in
  do* print_stats D c t in
  write_metadata D t.

(** [for v in values: if not v: return False], telling whether the
    [return] is taken. *)
Fixpoint has_unmet (vs : list bool) : bool :=
  match vs with
  | [] => false
  | v :: vs' => if negb v then true else has_unmet vs'
  end.

Fixpoint env_ready_loop (D : Deps) (g : Globals) (tcs : list cls) : M bool :=
  match tcs with
  | [] => ret true
  | tc :: rest =>
      let* m := check_env_of D g tc in
      if has_unmet (map snd m) then ret false else env_ready_loop D g rest
  end.

Definition env_ready (D : Deps) (g : Globals) : M bool :=
  env_ready_loop D g (map snd toolchains).

(** ** Notions the properties are stated with *)

(** The ambient process environment: the items of [os.environ]. *)
Definition environ (w : World) : gmap string string :=
  default ∅ (heap w !! os_environ).

(** Whether every process of the trace [tr] is spawned while the stage
    [name] is open; [opened] tells whether it is open where [tr] starts. *)
Fixpoint spawns_inside (name : string) (opened : bool) (tr : list event)
  : bool :=
  match tr with
  | [] => true
  | StageOpen n :: tr' => spawns_inside name (opened || String.eqb n name) tr'
  | StageClose n :: tr' =>
      spawns_inside name (opened && negb (String.eqb n name)) tr'
  | Spawn _ _ _ :: tr' => opened && spawns_inside name opened tr'
  | Construct _ :: tr' => spawns_inside name opened tr'
  end.

(** The build script a flow drives. *)
Definition Icecube2_script (g : Globals) : string :=
  root_dir g +:+ "/icecubed.sh".
Definition Radiant_script (g : Globals) : string :=
  root_dir g +:+ "/radiant.sh".

(** The environment of the build script: the ambient one overlaid with
    the four keys the adapter sets. *)
Definition Icecube2_overlay (self : Adapter) (ambient : gmap string string)
  : gmap string string :=
  <["ICEDEV" := device self +:+ "-" +:+ package self]>
    (<["ICECUBEDIR" := icecubedir self]>
      (<["TOP" := top self]>
        (<["SRCS" := PyStr.join " " (srcs self)]> ambient))).

Definition Radiant_overlay (self : Adapter) (ambient : gmap string string)
  : gmap string string :=
  <["RADDEV" := device self +:+ "-" +:+ package self]>
    (<["RADIANTDIR" := radiantdir self]>
      (<["TOP" := top self]>
        (<["SRCS" := PyStr.join " " (srcs self)]> ambient))).

(** The environment a spawned process runs in. *)
Definition received (ambient : gmap string string) (e : event)
  : option (gmap string string) :=
  match e with
  | Spawn _ _ (Some d) => Some d
  | Spawn _ _ None => Some ambient
  | _ => None
  end.

(** A requirement of a capability report: a path that must exist, or an
    executable that must be found on the search path. *)
Inductive requirement :=
| ReqPath (p : string)
| ReqExec (name : string).

(** Presence of a requirement on the host, [PATH] being the search path. *)
Definition present (w : World) (PATH : string) (r : requirement) : Prop :=
  match r with
  | ReqPath p => is_Some (fs w !! p)
  | ReqExec name =>
      ∃ d ls, d ∈ PyStr.split_on ":" PATH ∧
              fs w !! OsPath.join d name = Some (File true ls)
  end.

(** The requirement behind each key of a class's capability report. *)
Definition Icecube2_requirements (g : Globals) (c : Icecube2)
  : list (string * requirement) :=
  match c with
  | Icecube2Synpro | Icecube2LSE =>
      [("ICECUBEDIR", ReqPath (ICECUBEDIR_DEFAULT g));
       ("icetime", ReqExec "icetime")]
  | Icecube2Yosys =>
      [("yosys", ReqExec "yosys");
       ("ICECUBEDIR", ReqPath (ICECUBEDIR_DEFAULT g));
       ("icetime", ReqExec "icetime")]
  end.

Definition Radiant_requirements (g : Globals)
  : list (string * requirement) :=
  [("RADIANTDIR", ReqPath (RADIANTDIR_DEFAULT g));
   ("iceunpack", ReqExec "iceunpack");
   ("icetime", ReqExec "icetime")].

(** A report [m] states the presence of the requirements [rs], key by
    key and in order. *)
Definition reports (w : World) (PATH : string)
    (m : list (string * bool)) (rs : list (string * requirement)) : Prop :=
  Forall2 (fun kv kr => fst kv = fst kr ∧
                        (snd kv = true ↔ present w PATH (snd kr))) m rs.

Definition requirements (g : Globals) (c : cls)
  : list (string * requirement) :=
  match c with
  | CImported _ => []
  | CIcecube2 i => Icecube2_requirements g i
  | CRadiant _ => Radiant_requirements g
  end.

(** No line of a file starts with the marker. *)
Definition lacks_marker (marker : string) (ls : list string) : Prop :=
  Forall (fun l => PyStr.find_at_0 marker l = false) ls.

(** The argument string of the build script. *)
Definition Icecube2_args (c : Icecube2) (self : Adapter) : string :=
  if truthy_opt (strategy self)
  then ("--syn " +:+ Icecube2_syn c) +:+ " --strategy "
       +:+ default "" (strategy self)
  else "--syn " +:+ Icecube2_syn c.

Definition Radiant_args (c : Radiant) (self : Adapter) : string :=
  if truthy_opt (strategy self)
  then ("--syn " +:+ Radiant_syn c) +:+ " --strategy "
       +:+ default "" (strategy self)
  else "--syn " +:+ Radiant_syn c.

(** The body the two [run] methods have in common: a stage around the
    build script, run in a copy of the environment with four more keys,
    and [iceunpack]; then [icetime]. *)
Definition flow (D : Deps) (script args : string)
    (k1 v1 k2 v2 k3 v3 k4 v4 : string) (icetime_args : string) : M unit :=
  do* Timed "bit-all" (
    let* env := dict_copy os_environ in
    do* dict_setitem env k1 v1 in
    do* dict_setitem env k2 v2 in
    do* dict_setitem env k3 v3 in
    do* dict_setitem env k4 v4 in
    do* Toolchain_cmd D script args (Some env) in
    Toolchain_cmd D "iceunpack" "my.bin my.asc" None) in
  Toolchain_cmd D "icetime" icetime_args None.

(** The events of that body, given whether the build script and
    [iceunpack] exit with status zero. *)
Definition flow_trace (script args : string) (env : gmap string string)
    (icetime_args : string) (script_ok unpack_ok : bool) : list event :=
  [StageOpen "bit-all"; Spawn script args (Some env)]
  ++ (if script_ok then [Spawn "iceunpack" "my.bin my.asc" None] else [])
  ++ [StageClose "bit-all"]
  ++ (if script_ok && unpack_ok
      then [Spawn "icetime" icetime_args None] else []).

(** Class-indexed views of the two flows. *)
Definition build_script (g : Globals) (c : cls) : string :=
  match c with
  | CImported _ => ""
  | CIcecube2 _ => Icecube2_script g
  | CRadiant _ => Radiant_script g
  end.

Definition overlay_of (c : cls) (self : Adapter)
    (ambient : gmap string string) : gmap string string :=
  match c with
  | CImported _ => ambient
  | CIcecube2 _ => Icecube2_overlay self ambient
  | CRadiant _ => Radiant_overlay self ambient
  end.

(** An adapter of a class of this file whose [run] gets past its target
    check. *)
Definition runnable (c : cls) (self : Adapter) : Prop :=
  match c with
  | CImported _ => False
  | CIcecube2 _ => True
  | CRadiant _ => (device self, package self) ∈ Radiant_targets
  end.

(** The event is the spawning of one of the programs [progs]. *)
Definition spawn_of (progs : list string) (e : event) : Prop :=
  ∃ prog args env, e = Spawn prog args env ∧ prog ∈ progs.

(** The family and the seed that [run] admits. *)
Definition family_ok (family' : option string) : Prop :=
  family' = Some "ice40" ∨ family' = Some "xc7".

Definition seed_ok (seed' : option Z) : Prop :=
  seed' = None ∨ ∃ s, seed' = Some s ∧ (1 <= s <= 2 ^ 31 - 1)%Z.

(** The classes whose methods are defined in this file. *)
Definition in_file (c : cls) : bool :=
  match c with
  | CImported _ => false
  | CIcecube2 _ | CRadiant _ => true
  end.

(** ** Concrete hosts, collaborators and adapters *)

(** Collaborators for the examples: every external process exits with
    status zero and leaves the files alone. *)
Definition D0 : Deps :=
  {| freq := Z;
     usage := unit;
     spawn_process := fun _ _ _ f => (true, f);
     icetime_parse := fun _ => inr {[ "max_freq" := 100000000%Z ]};
     icebox_stat := fun _ _ => ret tt;
     realpath := fun s => s;
     json_load := fun _ => inr (mkProjectDesc "oneblink" ["oneblink.v"] "top");
     auto_out_dir := fun _ _ => "build";
     new_imported := fun _ _ =>
       ret (mkAdapter "" false None None None None None None None
                      "" "" "" "" [] "" "" "" "");
     imported_run := fun _ _ => ret tt;
     imported_max_freq := fun _ _ => ret 0%Z;
     imported_resources := fun _ _ => ret tt;
     imported_check_env := fun _ _ => inr [("tool", true)];
     write_metadata := fun _ => ret tt |}.

Definition g0 : Globals := load_module "/repo" ∅.

(** A host with a search path, [icetime] installed, and nothing else. *)
Definition w0 : World :=
  mkWorld {[ os_environ := {[ "PATH" := "/usr/bin:/bin" ]} ]} 0
          {[ "/bin/icetime" := File true [] ]} [].

(** A host started with an empty environment, with no file at all. *)
Definition w_nopath : World := mkWorld {[ os_environ := ∅ ]} 0 ∅ [].

(** A host with every requirement of every registered class. *)
Definition w_full : World :=
  mkWorld {[ os_environ := {[ "PATH" := "/bin" ]} ]} 0
          (<[ "/bin/icetime" := File true [] ]>
            (<[ "/bin/iceunpack" := File true [] ]>
              (<[ "/bin/yosys" := File true [] ]>
                (<[ "/opt/lscc/iCEcube2.2017.08" := Dir ]>
                  {[ "/opt/lscc/radiant/1.0" := Dir ]})))) [].

(** An output directory whose [my.asc] has no version line, and a
    Radiant installation whose [ispsys.ini] has none either. *)
Definition w_nomarker : World :=
  mkWorld {[ os_environ := {[ "PATH" := "/bin" ]} ]} 0
          (<[ "out/my.asc" := File false [".comment"; "Lattice"] ]>
            {[ "/opt/rad/data/ispsys.ini" := File false ["[Setup]"] ]}) [].

(** A source tree with an [xdc] constraint file and no [sdc] file. *)
Definition w_xdc_only : World :=
  mkWorld {[ os_environ := {[ "PATH" := "/bin" ]} ]} 0
          {[ "/repo/src/oneblink/xc7/a35tcsg324/vivado.xdc" := File false [] ]}
          [].

(** A source tree with an [sdc] constraint file and no [xdc] file. *)
Definition w_sdc_only : World :=
  mkWorld {[ os_environ := {[ "PATH" := "/bin" ]} ]} 0
          {[ "/repo/src/oneblink/xc7/a35tcsg324/vivado.sdc" := File false [] ]}
          [].

(** An adapter configured for the hx8k-ct256 target. *)
Definition a_hx8k : Adapter :=
  mkAdapter "icecube2-lse" false None None None None None None None
            "ice40" "hx8k" "ct256" "oneblink" ["a.v"; "b.v"] "top"
            "out" "/opt/ice" "/opt/rad".

(** An adapter configured for a target of the Radiant list. *)
Definition a_up5k : Adapter :=
  mkAdapter "radiant-lse" false None None None None None None None
            "ice40" "up5k" "sg48" "oneblink" ["a.v"; "b.v"] "top"
            "out" "/opt/ice" "/opt/rad".

Definition pd0 : ProjectDesc := mkProjectDesc "oneblink" ["a.v"; "b.v"] "top".

(** ** Further notions *)

(** [c in s] for a character [c]. *)
Fixpoint contains (c : ascii) (s : string) : bool :=
  match s with
  | EmptyString => false
  | String a s' => Ascii.eqb a c || contains c s'
  end.

(** [p] names a regular file with the execute permission. *)
Definition executable_file (w : World) (p : string) : Prop :=
  exists ls, fs w !! p = Some (File true ls).

(** The argument strings of the build script and of [icetime], by class. *)
Definition flow_args (c : cls) (self : Adapter) : string :=
  match c with
  | CImported _ => ""
  | CIcecube2 i => Icecube2_args i self
  | CRadiant r => Radiant_args r self
  end.

Definition icetime_args (c : cls) (self : Adapter) : string :=
  match c with
  | CImported _ => ""
  | CIcecube2 _ => "-tmd " +:+ device self +:+ " my.asc"
  | CRadiant _ => "-tmd up5k my.asc"
  end.

(** The world a flow leaves: the copy of the environment stays allocated,
    the files are as the last process left them. *)
Definition after_flow (w : World) (env : gmap string string)
    (files : gmap string node) (events : list event) : World :=
  mkWorld (<[S (next w) := env]> (heap w)) (S (next w)) files
          (trace w ++ events).


(** No character of [s] is white space. *)
Fixpoint no_space (s : string) : bool :=
  match s with
  | EmptyString => true
  | String a s' => negb (PyStr.is_space a) && no_space s'
  end.


(** The path [get_constraint] looks up. *)
Definition constraint_path (g : Globals)
    (project family' device' package' toolchain' extension : string)
  : string :=
  src_dir g +:+ "/" +:+ project +:+ "/" +:+ family' +:+ "/"
  +:+ device' +:+ package' +:+ "/" +:+ toolchain' +:+ "." +:+ extension.

(** The five mandatory arguments of [run] are given, the family is
    admitted and the seed is absent or in range. *)
Definition entry_ok (family' device' package' toolchain' project
                     : option string) (seed' : option Z) : Prop :=
  family_ok family' /\ seed_ok seed' /\
  is_Some device' /\ is_Some package' /\ is_Some toolchain' /\
  is_Some project.


(** ** The command-line functions

    The functions below print; their standard output is kept beside the
    world, line by line, and survives an exception.  What the functions
    modelled above print is not recorded. *)

Record Console := mkConsole {
  host : World;
  stdout : list string;
}.

Definition MC (A : Type) : Type := Console -> (exn + A) * Console.

Definition retC {A} (a : A) : MC A := fun c => (inr a, c).

Definition raiseC {A} (e : exn) : MC A := fun c => (inl e, c).

Definition bindC {A B} (m : MC A) (k : A -> MC B) : MC B :=
  fun c =>
    match m c with
    | (inl e, c') => (inl e, c')
    | (inr a, c') => k a c'
    end.

Notation "'let+' x := m 'in' k" := (bindC m (fun x => k))
  (at level 10, x name, m at level 100, k at level 200).
Notation "'do+' m 'in' k" := (bindC m (fun _ => k))
  (at level 10, m at level 100, k at level 200).

(** A computation on the world, run from a command-line function. *)
Definition liftC {A} (m : M A) : MC A :=
  fun c =>
    let '(r, w') := m (host c) in (r, mkConsole w' (stdout c)).

(** [print(s)] *)
Definition print (s : string) : MC unit :=
  fun c => (inr tt, mkConsole (host c) (stdout c ++ [s])).

(** [for x in l: body(x)] *)
Fixpoint forC {A} (l : list A) (body : A -> MC unit) : MC unit :=
  match l with
  | [] => retC tt
  | x :: l' => do+ body x in forC l' body
  end.

(** [sorted(l)] on items compared through a string key, as a stable
    insertion sort that uses [<] only.  The lists sorted below are names,
    or the items of the registry, whose names are all different, so that
    the comparison of two items never gets to their classes. *)
Fixpoint sorted_insert {A} (key : A -> string) (x : A) (l : list A)
  : list A :=
  match l with
  | [] => [x]
  | y :: l' =>
      if String.ltb (key y) (key x)
      then y :: sorted_insert key x l'
      else x :: y :: l'
  end.

Fixpoint py_sorted {A} (key : A -> string) (l : list A) : list A :=
  match l with
  | [] => []
  | x :: l' => sorted_insert key x (py_sorted key l')
  end.

(** Two items are in order by their keys. *)
Definition key_le {A} (key : A -> string) (x y : A) : Prop :=
  String.leb (key x) (key y) = true.

(** [str(b)] *)
Definition str_bool (b : bool) : string := if b then "True" else "False".

(** Collaborators of the command-line functions that are not defined in
    this file: [tc.seedable()], the project names that [get_projects]
    finds with [glob], [int(s, 0)], the usage text of the argument parser
    and [sys.argv[0]]. *)
Record CliDeps := mkCliDeps {
  seedable : cls -> bool;
  get_projects : World -> exn + list string;
  py_int : string -> exn + Z;
  usage_text : string;
  argv0 : string;
}.

(** What [sys.exit(1)] raises. *)
Definition SystemExit_1 : exn := Foreign "SystemExit(1)".

Definition get_toolchains : list string :=
  py_sorted id (map fst toolchains).

Definition list_toolchains : MC unit :=
  forC get_toolchains print.

Definition list_projects (X : CliDeps) : MC unit :=
  let+ ps := liftC (fun w => (get_projects X w, w)) in
  forC ps print.

Definition get_seedable (X : CliDeps) : list string :=
  map fst (filter (fun t => seedable X (snd t)) (py_sorted fst toolchains)).

Definition list_seedable (X : CliDeps) : MC unit :=
  forC (get_seedable X) print.

(** The module-level [check_env(to_check)]. *)
Definition check_env (D : Deps) (g : Globals) (to_check : option string)
  : MC unit :=
  let+ tools :=
    if truthy_opt to_check then
      let tools :=
        filter (fun t => String.eqb (fst t) (default "" to_check))
               toolchains in
      match tools with
      | [] => raiseC TypeError
      | _ => retC tools
      end
    else retC toolchains in
  forC (py_sorted fst tools) (fun t =>
    do+ print (fst t) in
    let+ m := liftC (check_env_of D g (snd t)) in
    forC m (fun kv => print ("  " +:+ fst kv +:+ ": " +:+ str_bool (snd kv)))).

(** The attributes of the parsed arguments that [main] reads. *)
Record Args := mkArgs {
  arg_verbose : bool;
  arg_family : option string;
  arg_device : option string;
  arg_package : option string;
  arg_strategy : option string;
  arg_carry : option bool;
  arg_toolchain : option string;
  arg_list_toolchains : bool;
  arg_project : option string;
  arg_list_projects : bool;
  arg_seed : option string;
  arg_list_seedable : bool;
  arg_check_env : bool;
  arg_out_dir : option string;
  arg_out_prefix : option string;
  arg_build : option string;
}.

(** [if x is None: argument_errors.append(msg)] *)
Definition required (x : option string) (msg : string) : list string :=
  match x with
  | None => [msg]
  | Some _ => []
  end.

(** The list [argument_errors] of [main]. *)
Definition argument_errors (args : Args) : list string :=
  required (arg_family args) "--family argument required"
  ++ required (arg_device args) "--device argument required"
  ++ required (arg_package args) "--package argument required"
  ++ required (arg_toolchain args) "--toolchain argument required"
  ++ required (arg_project args) "--project argument required".

(** [main], from the parsed arguments on. *)
Definition main (D : Deps) (g : Globals) (X : CliDeps) (args : Args)
  : MC unit :=
  if arg_list_toolchains args then list_toolchains
  else if arg_list_projects args then list_projects X
  else if arg_list_seedable args then list_seedable X
  else if arg_check_env args then check_env D g (arg_toolchain args)
  else
    do+ match argument_errors args with
        | [] => retC tt
        | errors =>
            do+ print (usage_text X) in
            do+ forC errors (fun e => print (argv0 X +:+ ": error: " +:+ e)) in
            raiseC SystemExit_1
        end in
    let+ seed' :=
      if truthy_opt (arg_seed args)
      then let+ n := liftC (lift (py_int X (default "" (arg_seed args)))) in
           retC (Some n)
      else retC None in
    liftC (run D g (arg_family args) (arg_device args) (arg_package args)
               (arg_toolchain args) (arg_project args)
               (arg_out_dir args) (arg_out_prefix args) (arg_verbose args)
               (arg_strategy args) seed' (arg_carry args) (arg_build args)).

(** [add_bool_arg]: [yes_arg.replace('--', '')], then
    [dashed.replace('-', '_')], and the name of the negative flag. *)
Fixpoint remove_double_dash (s : string) : string :=
  match s with
  | String "-" (String "-" s') => remove_double_dash s'
  | String a s' => String a (remove_double_dash s')
  | EmptyString => EmptyString
  end.

(** [s.replace('-', '_')] *)
Fixpoint dash_to_underscore (s : string) : string :=
  match s with
  | String a s' =>
      String (if Ascii.eqb a "-" then "_"%char else a) (dash_to_underscore s')
  | EmptyString => EmptyString
  end.

(** The names [add_bool_arg] derives from [yes_arg]: the destination of
    both flags and the negative flag. *)
Definition add_bool_arg_names (yes_arg : string) : string * string :=
  let dashed := remove_double_dash yes_arg in
  let dest := dash_to_underscore dashed in
  (dest, "--no-" +:+ dashed).

(** The mode flags of [main] are all off. *)
Definition run_mode (args : Args) : Prop :=
  arg_list_toolchains args = false /\ arg_list_projects args = false /\
  arg_list_seedable args = false /\ arg_check_env args = false.

(** Collaborators of the command line for the examples: [int(s, 0)] is
    given on three inputs. *)
Definition X0 : CliDeps :=
  {| seedable := fun c => match c with
                          | CImported Nextpnr | CImported Arachne => true
                          | _ => false
                          end;
     get_projects := fun _ => inr ["oneblink"];
     py_int := fun s =>
       if String.eqb s "0" then inr 0%Z
       else if String.eqb s "0x10" then inr 16%Z
       else inl (Foreign "ValueError");
     usage_text := "usage: fpgaperf.py [-h]";
     argv0 := "fpgaperf.py" |}.

(** Parsed arguments as the parser's defaults give them, for a given
    package, toolchain, project and seed. *)
Definition args0 (package' toolchain' project seed' : option string) : Args :=
  mkArgs false (Some "ice40") (Some "hx8k") package' None None toolchain'
         false project false seed' false false None None None.

(** * Properties *)

(** ** Running the monad *)

Lemma bind_raise {A B} (m : M A) (k : A -> M B) e w w' :
  m w = (inl e, w') -> bind m k w = (inl e, w').
Proof. intros H. unfold bind. now rewrite H. Qed.

(** ** The assertions at the head of [run] *)

Lemma family_ok_dec family' :
  (match family' with
   | Some f => String.eqb f "ice40" || String.eqb f "xc7"
   | None => false
   end) = true <-> family_ok family'.
Proof.
  unfold family_ok. destruct family' as [f|].
  - rewrite orb_true_iff, !String.eqb_eq. split; intros [H|H].
    + left; now subst. + right; now subst.
    + left; congruence. + right; congruence.
  - split; [discriminate | intros [H|H]; discriminate].
Qed.

Lemma seed_ok_dec seed' :
  (match seed' with
   | None => true
   | Some s => (1 <=? s)%Z && (s <=? 2147483647)%Z
   end) = true <-> seed_ok seed'.
Proof.
  unfold seed_ok. change (2 ^ 31 - 1)%Z with 2147483647%Z.
  destruct seed' as [s|].
  - rewrite andb_true_iff, !Z.leb_le. split.
    + intros H. right. exists s. split; [reflexivity | lia].
    + intros [H | (s' & E & H)]; [discriminate |]. injection E as ->. lia.
  - split; [now left | reflexivity].
Qed.

(** [run_entry] passes exactly when the five mandatory arguments are
    given, the family is one of the two admitted and the seed is absent
    or in range; it never touches the world. *)
Lemma run_entry_passes family' device' package' toolchain' project seed' w :
  family_ok family' -> seed_ok seed' ->
  forall d p t pr,
    device' = Some d -> package' = Some p -> toolchain' = Some t ->
    project = Some pr ->
    run_entry family' device' package' toolchain' project seed' w
      = (inr (default "" family', d, p, t, pr), w).
Proof.
  intros Hf Hs d p t pr -> -> -> ->.
  apply family_ok_dec in Hf. apply seed_ok_dec in Hs.
  unfold run_entry. rewrite Hf. unfold bind; cbn. rewrite Hs. reflexivity.
Qed.

Lemma run_entry_rejects family' device' package' toolchain' project seed' w :
  ~ family_ok family' \/ device' = None \/ package' = None \/
  toolchain' = None \/ project = None \/ ~ seed_ok seed' ->
  run_entry family' device' package' toolchain' project seed' w
    = (inl AssertionError, w).
Proof.
  intros H. unfold run_entry.
  destruct (match family' with
            | Some f => String.eqb f "ice40" || String.eqb f "xc7"
            | None => false
            end) eqn:Ef; [|reflexivity].
  destruct device' as [d|]; [|reflexivity].
  destruct package' as [p|]; [|reflexivity].
  destruct toolchain' as [t|]; [|reflexivity].
  destruct project as [pr|]; [|reflexivity].
  destruct (match seed' with
            | None => true
            | Some s => (1 <=? s)%Z && (s <=? 2147483647)%Z
            end) eqn:Es.
  - exfalso. apply family_ok_dec in Ef. apply seed_ok_dec in Es.
    destruct H as [H|[H|[H|[H|[H|H]]]]];
      try discriminate; now apply H.
  - reflexivity.
Qed.

Lemma run_rejected_at_entry D g family' device' package' toolchain' project
    out_dir' out_prefix verbose' strategy' seed' carry' build' w :
  run_entry family' device' package' toolchain' project seed' w
    = (inl AssertionError, w) ->
  run D g family' device' package' toolchain' project out_dir' out_prefix
      verbose' strategy' seed' carry' build' w = (inl AssertionError, w).
Proof. intros H. unfold run. now apply bind_raise. Qed.

(** C6: the orchestrator admits a seed only when it is [None] or an
    integer in [1, 2^31 - 1].  A seed outside that range makes [run] fail
    on its entry assertions with the world untouched: no adapter has been
    constructed and nothing has happened outside.  A seed that is absent
    or in range passes the entry assertions when the other arguments do. *)
Theorem C6_seed_checked_at_entry D g family' device' package' toolchain'
    project out_dir' out_prefix verbose' strategy' carry' build' w :
  (forall s : Z,
      ~ (1 <= s <= 2 ^ 31 - 1)%Z ->
      run D g family' device' package' toolchain' project out_dir' out_prefix
          verbose' strategy' (Some s) carry' build' w
        = (inl AssertionError, w)) /\
  (forall seed' d p t pr,
      seed_ok seed' -> family_ok family' ->
      device' = Some d -> package' = Some p -> toolchain' = Some t ->
      project = Some pr ->
      run_entry family' device' package' toolchain' project seed' w
        = (inr (default "" family', d, p, t, pr), w)).
Proof.
  split.
  - intros s Hs. apply run_rejected_at_entry, run_entry_rejects.
    do 5 right. intros [E | (s' & E & H)]; [discriminate |].
    injection E as <-. now apply Hs.
  - intros seed' d p t pr Hs Hf. now apply run_entry_passes.
Qed.

Lemma C6_seed_checked_at_entry_witness :
  run D0 g0 (Some "ice40") (Some "hx8k") (Some "ct256") (Some "vpr")
      (Some "oneblink") None None false None (Some 0%Z) None None w0
    = (inl AssertionError, w0) /\
  run D0 g0 (Some "ice40") (Some "hx8k") (Some "ct256") (Some "vpr")
      (Some "oneblink") None None false None (Some (2 ^ 31)%Z) None None w0
    = (inl AssertionError, w0) /\
  run_entry (Some "ice40") (Some "hx8k") (Some "ct256") (Some "vpr")
      (Some "oneblink") (Some (2 ^ 31 - 1)%Z) w0
    = (inr ("ice40", "hx8k", "ct256", "vpr", "oneblink"), w0).
Proof.
  pose proof (C6_seed_checked_at_entry D0 g0 (Some "ice40") (Some "hx8k")
                (Some "ct256") (Some "vpr") (Some "oneblink") None None
                false None None None w0) as [Hrej Hacc].
  split; [| split].
  - apply Hrej. lia.
  - apply Hrej. lia.
  - apply (Hacc (Some (2 ^ 31 - 1)%Z) "hx8k" "ct256" "vpr" "oneblink");
      try reflexivity.
    + right. exists (2 ^ 31 - 1)%Z. split; [reflexivity | lia].
    + now left.
Defined.

(** C10: [run] rejects every family other than 'ice40' and 'xc7', and a
    missing device, package, toolchain or project, on its entry
    assertions: the failure leaves the world untouched, so no adapter has
    been constructed, no constraint file looked up and no process
    spawned. *)
Theorem C10_arguments_checked_at_entry D g family' device' package'
    toolchain' project out_dir' out_prefix verbose' strategy' seed' carry'
    build' w :
  (family' <> Some "ice40" /\ family' <> Some "xc7") \/
  device' = None \/ package' = None \/ toolchain' = None \/ project = None ->
  run D g family' device' package' toolchain' project out_dir' out_prefix
      verbose' strategy' seed' carry' build' w
    = (inl AssertionError, w).
Proof.
  intros H. apply run_rejected_at_entry, run_entry_rejects.
  destruct H as [[H1 H2]|[H|[H|[H|H]]]]; auto 6.
  left. intros [E|E]; contradiction.
Qed.

Lemma C10_arguments_checked_at_entry_witness :
  run D0 g0 (Some "ecp5") (Some "hx8k") (Some "ct256") (Some "vpr")
      (Some "oneblink") None None false None None None None w0
    = (inl AssertionError, w0) /\
  run D0 g0 (Some "ice40") (Some "hx8k") None (Some "vpr")
      (Some "oneblink") None None false None None None None w0
    = (inl AssertionError, w0).
Proof.
  split.
  - apply C10_arguments_checked_at_entry. left. split; discriminate.
  - apply C10_arguments_checked_at_entry. right. right. left. reflexivity.
Defined.

(** ** The target check of the Radiant flow *)

Lemma Radiant_supported_spec device' package' :
  Radiant_supported device' package' = true <->
  (device', package') ∈ Radiant_targets.
Proof.
  unfold Radiant_supported, Radiant_targets. cbn [existsb fst snd].
  rewrite !orb_true_iff, !andb_true_iff, !String.eqb_eq.
  rewrite !elem_of_cons, elem_of_nil.
  split.
  - intros [[-> ->]|[[-> ->]|[[-> ->]|H]]]; try discriminate; auto.
  - intros [E|[E|[E|[]]]]; injection E as -> ->; tauto.
Qed.

Lemma target_in_spec targets device' package' :
  target_in targets device' package' = true <->
  (device', package') ∈ targets.
Proof.
  unfold target_in. rewrite existsb_exists. split.
  - intros ([d p] & Hin & H). cbn [fst snd] in H.
    apply andb_true_iff in H as [Hd Hp].
    apply String.eqb_eq in Hd, Hp. subst. now apply list_elem_of_In.
  - intros Hin. exists (device', package'). split.
    + now apply list_elem_of_In.
    + cbn [fst snd]. now rewrite !String.eqb_refl.
Qed.

(** The assertion at the head of [Radiant.run]: with a pair outside the
    list, [run] fails and leaves the world as it was. *)
Lemma Radiant_run_rejects_unsupported_pair D g c self w :
  (device self, package self) ∉ Radiant_targets ->
  Radiant_run D g c self w = (inl AssertionError, w).
Proof.
  intros H. unfold Radiant_run.
  destruct (Radiant_supported (device self) (package self)) eqn:E.
  - exfalso. apply H. now apply Radiant_supported_spec.
  - reflexivity.
Qed.

(** C1: for an adapter class with a declared (device, package) support
    list, the configure step called with a pair outside that list fails
    with [UnsupportedTargetError] and leaves the world as it was: no
    stage is opened, no process is spawned, nothing is changed outside.
    The Radiant flow is such a class, its list being [(up3k,uwg30),
    (up5k,uwg30), (up5k,sg48)]; [Radiant.run] also guards itself with the
    same list, by an assertion that fails before any stage or process. *)
Theorem C1_configure_rejects_unsupported_pair D g c self pd family' device'
    package' out_dir' out_prefix w targets :
  declared_targets c = Some targets ->
  (device', package') ∉ targets ->
  Toolchain_project D c self pd family' device' package' out_dir' out_prefix w
    = (inl UnsupportedTargetError, w) /\
  (forall r,
      declared_targets (CRadiant r)
        = Some [("up3k", "uwg30"); ("up5k", "uwg30"); ("up5k", "sg48")]) /\
  (forall r t,
      c = CRadiant r -> device t = device' -> package t = package' ->
      Radiant_run D g r t w = (inl AssertionError, w)).
Proof.
  intros Hc Hout. split; [| split].
  - unfold Toolchain_project. rewrite Hc.
    destruct (target_in targets device' package') eqn:E; [| reflexivity].
    exfalso. apply Hout. now apply target_in_spec.
  - reflexivity.
  - intros r t -> Hd Hp. cbn [declared_targets] in Hc. injection Hc as <-.
    apply Radiant_run_rejects_unsupported_pair. now rewrite Hd, Hp.
Qed.

Lemma C1_configure_rejects_unsupported_pair_witness :
  Toolchain_project D0 (CRadiant RadiantLSE) a_up5k pd0 "ice40" "hx8k" "ct256"
                    (Some "out") None w0
    = (inl UnsupportedTargetError, w0) /\
  Radiant_run D0 g0 RadiantLSE a_hx8k w0 = (inl AssertionError, w0).
Proof.
  assert (("hx8k", "ct256") ∉ Radiant_targets) as Hout.
  { intros H. apply Radiant_supported_spec in H. discriminate H. }
  destruct (C1_configure_rejects_unsupported_pair D0 g0 (CRadiant RadiantLSE)
              a_up5k pd0 "ice40" "hx8k" "ct256" (Some "out") None w0
              Radiant_targets eq_refl Hout) as (Hcfg & _ & Hrun).
  split; [exact Hcfg |].
  apply (Hrun RadiantLSE a_hx8k); reflexivity.
Defined.

(** A supported pair, or a class without a declared list, is accepted:
    the target and the project are stored on the adapter and the world is
    not touched. *)
Lemma Toolchain_project_accepts D c self pd family' device' package'
    out_dir' out_prefix w :
  match declared_targets c with
  | Some targets => (device', package') ∈ targets
  | None => True
  end ->
  exists t,
    Toolchain_project D c self pd family' device' package' out_dir'
                      out_prefix w = (inr t, w) /\
    family t = family' /\ device t = device' /\ package t = package' /\
    srcs t = pd_srcs pd /\ top t = pd_top pd.
Proof.
  intros H. unfold Toolchain_project.
  destruct (declared_targets c) as [targets|].
  - apply target_in_spec in H. rewrite H. eexists. now repeat split.
  - eexists. now repeat split.
Qed.

(** ** The timing report *)

(** C8: [max_freq] of the iCEcube2 and Radiant adapters reads the timing
    report at [out_dir/icetime.txt].  When that file is absent the call
    raises the file-not-found error of [open] and returns no frequency;
    when it is present the result is the 'max_freq' entry of what
    [icetime_parse] makes of its lines. *)
Theorem C8_max_freq_needs_report D c self w :
  in_file c = true ->
  let report := out_dir self +:+ "/icetime.txt" in
  (fs w !! report = None ->
   adapter_max_freq D c self w = (inl (FileNotFoundError report), w)) /\
  (forall x ls,
      fs w !! report = Some (File x ls) ->
      adapter_max_freq D c self w =
      (match icetime_parse D ls with
       | inl e => inl e
       | inr d => match d !! "max_freq" with
                  | Some v => inr v
                  | None => inl (KeyError "max_freq")
                  end
       end, w)).
Proof.
  intros Hc report.
  assert (adapter_max_freq D c self = Icecube2_max_freq D self) as ->.
  { destruct c; [discriminate | reflexivity | reflexivity]. }
  unfold Icecube2_max_freq, bind, py_open, lift, dict_lookup. fold report.
  split.
  - intros ->. reflexivity.
  - intros x ls ->.
    destruct (icetime_parse D ls) as [e|d]; [reflexivity |].
    destruct (d !! "max_freq"); reflexivity.
Qed.

Lemma C8_max_freq_needs_report_witness :
  adapter_max_freq D0 (CRadiant RadiantLSE) a_up5k w0
    = (inl (FileNotFoundError "out/icetime.txt"), w0).
Proof.
  apply (C8_max_freq_needs_report D0 (CRadiant RadiantLSE) a_up5k w0);
    reflexivity.
Defined.

(** ** The constraint files *)

Lemma constraint_path_truthy a b : PyStr.truthy (a +:+ "/" +:+ b) = true.
Proof. destruct a; reflexivity. Qed.

(** What [run_constraints] computes, in terms of which of the three
    files exist: [pcf] and [sdc] follow their own file, [xdc] is guarded
    by the [sdc] file. *)
Lemma run_constraints_spec D g project family' device' package' toolchain' w :
  let path ext := src_dir g +:+ "/" +:+ project +:+ "/" +:+ family' +:+ "/"
                  +:+ device' +:+ package' +:+ "/" +:+ toolchain' +:+ "."
                  +:+ ext in
  let found ext := match fs w !! path ext with
                   | Some _ => Some (realpath D (path ext))
                   | None => None
                   end in
  run_constraints D g project family' device' package' toolchain' w =
  (match found "sdc", found "xdc" with
   | None, _ => inr (found "pcf", None, None)
   | Some s, Some x => inr (found "pcf", Some s, Some x)
   | Some s, None => inl TypeError
   end, w).
Proof.
  intros path found.
  unfold run_constraints, get_pcf, get_sdc, get_xdc, get_constraint,
    realpath_if, os_path_realpath, os_path_exists, bind, ret, raise.
  fold (path "pcf") (path "sdc") (path "xdc"). unfold found.
  assert (forall ext, PyStr.truthy (path ext) = true) as T.
  { intros ext. unfold path. apply constraint_path_truthy. }
  destruct (fs w !! path "pcf"), (fs w !! path "sdc"), (fs w !! path "xdc");
    cbn [truthy_opt]; rewrite ?T; reflexivity.
Qed.

(** C7 (the code at two inputs): with an [xdc] file present and no [sdc]
    file, the adapter's [xdc] field is left [None]; with an [sdc] file
    present and no [xdc] file, resolving [xdc] raises [TypeError] and the
    run stops.  The [xdc] field is guarded by the [sdc] lookup. *)
Theorem C7_xdc_guard_reads_sdc :
  (fs w_xdc_only !! "/repo/src/oneblink/xc7/a35tcsg324/vivado.xdc"
     = Some (File false []) /\
   run_constraints D0 g0 "oneblink" "xc7" "a35t" "csg324" "vivado" w_xdc_only
     = (inr (None, None, None), w_xdc_only)) /\
  (fs w_sdc_only !! "/repo/src/oneblink/xc7/a35tcsg324/vivado.xdc" = None /\
   run_constraints D0 g0 "oneblink" "xc7" "a35t" "csg324" "vivado" w_sdc_only
     = (inl TypeError, w_sdc_only) /\
   fst (run D0 g0 (Some "xc7") (Some "a35t") (Some "csg324") (Some "vivado")
            (Some "oneblink") None None false None None None None w_sdc_only)
     = inl TypeError).
Proof.
  split; [split | split; [| split]]; vm_compute; reflexivity.
Qed.

(** ** The two flows: stage, processes and environment *)

Lemma Icecube2_run_flow D g c self :
  Icecube2_run D g c self =
  flow D (Icecube2_script g) (Icecube2_args c self)
       "SRCS" (PyStr.join " " (srcs self)) "TOP" (top self)
       "ICECUBEDIR" (icecubedir self)
       "ICEDEV" (device self +:+ "-" +:+ package self)
       ("-tmd " +:+ device self +:+ " my.asc").
Proof. reflexivity. Qed.

Lemma Radiant_run_flow D g c self :
  Radiant_run D g c self =
  do* py_assert (Radiant_supported (device self) (package self)) in
  flow D (Radiant_script g) (Radiant_args c self)
       "SRCS" (PyStr.join " " (srcs self)) "TOP" (top self)
       "RADIANTDIR" (radiantdir self)
       "RADDEV" (device self +:+ "-" +:+ package self)
       "-tmd up5k my.asc".
Proof. reflexivity. Qed.

Lemma Toolchain_cmd_spec D prog args env w :
  let passed :=
    match env with Some l => Some (default ∅ (heap w !! l)) | None => None end in
  let out := spawn_process D prog args (default (environ w) passed) (fs w) in
  Toolchain_cmd D prog args env w =
  (if fst out then inr tt else inl (CalledProcessError prog),
   mkWorld (heap w) (next w) (snd out) (trace w ++ [Spawn prog args passed])).
Proof.
  unfold Toolchain_cmd, bind, dict_read, ret, emit, environ.
  destruct env as [l|]; cbn;
    match goal with |- context [spawn_process ?a ?b ?c ?d ?e] =>
      destruct (spawn_process a b c d e) as [ok fs'] end;
    reflexivity.
Qed.

(** The events and the heap after the common body, for whatever the
    three processes do. *)
Lemma flow_spec D script args k1 v1 k2 v2 k3 v3 k4 v4 targs w :
  let r := flow D script args k1 v1 k2 v2 k3 v3 k4 v4 targs w in
  let env := <[k4:=v4]> (<[k3:=v3]> (<[k2:=v2]> (<[k1:=v1]> (environ w)))) in
  exists script_ok unpack_ok,
    trace (snd r) = (trace w ++ flow_trace script args env targs
                                   script_ok unpack_ok)%list /\
    heap (snd r) = <[S (next w) := env]> (heap w) /\
    (fst r = inr tt -> script_ok = true /\ unpack_ok = true).
Proof.
  cbv zeta. unfold flow, Timed, flow_trace.
  unfold bind, dict_copy, dict_setitem, emit. cbn [heap next fs trace].
  rewrite !lookup_insert_eq. cbn [default from_option id].
  rewrite !insert_insert_eq. fold (environ w).
  rewrite Toolchain_cmd_spec. cbn [heap next fs trace fst snd].
  rewrite lookup_insert_eq. cbn [default from_option id].
  destruct (spawn_process D script args _ _) as [[|] fs1]; cbn [fst snd].
  - rewrite Toolchain_cmd_spec. cbn [heap next fs trace fst snd].
    destruct (spawn_process D "iceunpack" _ _ _) as [[|] fs2]; cbn [fst snd].
    + rewrite Toolchain_cmd_spec. cbn [heap next fs trace fst snd].
      exists true, true. cbn. rewrite <- !app_assoc. cbn. now repeat split.
    + exists true, false. cbn. rewrite <- !app_assoc. cbn.
      now repeat split.
  - exists false, false. cbn. rewrite <- !app_assoc. cbn. now repeat split.
Qed.

(** [run] of a runnable adapter of this file is the common body. *)
Lemma adapter_run_flow D g c self w :
  runnable c self ->
  exists args k3 v3 k4 targs,
    adapter_run D g c self w =
    flow D (build_script g c) args
         "SRCS" (PyStr.join " " (srcs self)) "TOP" (top self)
         k3 v3 k4 (device self +:+ "-" +:+ package self) targs w /\
    overlay_of c self (environ w) =
    <[k4 := device self +:+ "-" +:+ package self]>
      (<[k3 := v3]>
        (<["TOP" := top self]>
          (<["SRCS" := PyStr.join " " (srcs self)]> (environ w)))).
Proof.
  destruct c as [i|i|r]; cbn [runnable adapter_run]; intros H.
  - destruct H.
  - eexists _, _, _, _, _. rewrite Icecube2_run_flow. split; reflexivity.
  - apply Radiant_supported_spec in H.
    eexists _, _, _, _, _. rewrite Radiant_run_flow, H. split; reflexivity.
Qed.

(** At the hx8k-ct256 adapter, with every process succeeding, [icetime]
    is spawned after the 'bit-all' stage has been closed: not every
    process of the run executes inside the stage. *)
Lemma C2_icetime_runs_outside_bit_all :
  let r := Icecube2_run D0 g0 Icecube2LSE a_hx8k w0 in
  fst r = inr tt /\
  trace (snd r) !! 3%nat = Some (StageClose "bit-all") /\
  trace (snd r) !! 4%nat = Some (Spawn "icetime" "-tmd hx8k my.asc" None) /\
  spawns_inside "bit-all" false (trace (snd r)) = false.
Proof. vm_compute. repeat split. Qed.

(** C2 (as the code has it): [run] of the iCEcube2 and Radiant adapters
    opens one stage named 'bit-all'.  The build script and [iceunpack]
    are spawned inside it; the stage is closed before [icetime] is
    spawned.  A run that succeeds has therefore spawned [icetime] outside
    the stage, whose duration does not cover it. *)
Theorem C2_bit_all_wraps_build_not_icetime D g c self w :
  trace w = [] -> runnable c self ->
  let r := adapter_run D g c self w in
  exists inner outer,
    trace (snd r)
      = (StageOpen "bit-all" :: inner ++ StageClose "bit-all" :: outer)%list /\
    inner <> [] /\
    Forall (spawn_of [build_script g c; "iceunpack"]) inner /\
    Forall (spawn_of ["icetime"]) outer /\
    spawns_inside "bit-all" false
      (StageOpen "bit-all" :: inner ++ [StageClose "bit-all"]) = true /\
    (fst r = inr tt ->
     outer <> [] /\ spawns_inside "bit-all" false (trace (snd r)) = false).
Proof.
  intros Ht Hr r. subst r.
  destruct (adapter_run_flow D g c self w Hr)
    as (args & k3 & v3 & k4 & targs & -> & _).
  destruct (flow_spec D (build_script g c) args
              "SRCS" (PyStr.join " " (srcs self)) "TOP" (top self)
              k3 v3 k4 (device self +:+ "-" +:+ package self) targs w)
    as (a & b & Hs & _ & Hok).
  cbv zeta in Hs, Hok. rewrite Hs, Ht. cbn [app].
  set (env := <[k4:=_]> _).
  assert (forall p x y, spawn_of [build_script g c; "iceunpack"]
                                 (Spawn p x y) <->
                        p = build_script g c \/ p = "iceunpack") as S2.
  { intros p x y. unfold spawn_of. split.
    - intros (p' & x' & y' & E & Hin). injection E as <- <- <-.
      rewrite !elem_of_cons, elem_of_nil in Hin. tauto.
    - intros Hp. exists p, x, y. split; [reflexivity |].
      rewrite !elem_of_cons, elem_of_nil. tauto. }
  assert (forall x y, spawn_of ["icetime"] (Spawn "icetime" x y)) as S1.
  { intros x y. exists "icetime", x, y. split; [reflexivity |].
    rewrite elem_of_cons. now left. }
  destruct a, b; unfold flow_trace; cbn [app andb].
  - exists [Spawn (build_script g c) args (Some env);
            Spawn "iceunpack" "my.bin my.asc" None],
           [Spawn "icetime" targs None].
    split; [reflexivity | split; [discriminate |]].
    split; [repeat constructor; apply S2; auto |].
    split; [repeat constructor; apply S1 |].
    split; [reflexivity |].
    intros _. split; [discriminate | reflexivity].
  - exists [Spawn (build_script g c) args (Some env);
            Spawn "iceunpack" "my.bin my.asc" None], [].
    split; [reflexivity | split; [discriminate |]].
    split; [repeat constructor; apply S2; auto |].
    split; [constructor |].
    split; [reflexivity |].
    intros H. apply Hok in H. destruct H; discriminate.
  - exists [Spawn (build_script g c) args (Some env)], [].
    split; [reflexivity | split; [discriminate |]].
    split; [repeat constructor; apply S2; auto |].
    split; [constructor |].
    split; [reflexivity |].
    intros H. apply Hok in H. destruct H; discriminate.
  - exists [Spawn (build_script g c) args (Some env)], [].
    split; [reflexivity | split; [discriminate |]].
    split; [repeat constructor; apply S2; auto |].
    split; [constructor |].
    split; [reflexivity |].
    intros H. apply Hok in H. destruct H; discriminate.
Qed.

Lemma C2_bit_all_wraps_build_not_icetime_witness :
  exists inner outer,
    trace (snd (adapter_run D0 g0 (CRadiant RadiantLSE) a_up5k w0))
      = (StageOpen "bit-all" :: inner ++ StageClose "bit-all" :: outer)%list /\
    Forall (spawn_of ["/repo/radiant.sh"; "iceunpack"]) inner /\
    Forall (spawn_of ["icetime"]) outer /\
    outer <> [].
Proof.
  destruct (C2_bit_all_wraps_build_not_icetime D0 g0 (CRadiant RadiantLSE)
              a_up5k w0) as (inner & outer & Ht & _ & Hi & Ho & _ & Hok).
  - reflexivity.
  - apply Radiant_supported_spec. reflexivity.
  - exists inner, outer. repeat split; try assumption.
    apply Hok. reflexivity.
Defined.

(** What every spawned process of the common body is given. *)
Lemma flow_trace_environments script args env targs a b :
  Forall (fun e => forall prog args' env',
              e = Spawn prog args' env' ->
              (prog = script /\ env' = Some env) \/
              (prog ∈ ["iceunpack"; "icetime"] /\ env' = None))
         (flow_trace script args env targs a b).
Proof.
  assert ("iceunpack" ∈ ["iceunpack"; "icetime"]) as Hu
      by (rewrite elem_of_cons; now left).
  assert ("icetime" ∈ ["iceunpack"; "icetime"]) as Hi
      by (rewrite !elem_of_cons; right; now left).
  destruct a, b; unfold flow_trace; cbn [app andb];
    rewrite ?Forall_cons, Forall_nil;
    repeat match goal with |- _ /\ _ => split end; try exact I;
    intros prog args' env' E;
    try discriminate E; injection E as <- <- <-; auto.
Qed.

(** At the hx8k-ct256 adapter, [iceunpack] is spawned with no environment
    argument: it runs in the ambient environment, which has none of the
    adapter's keys, while the overlay has them. *)
Lemma C4_iceunpack_runs_without_overlay :
  let r := Icecube2_run D0 g0 Icecube2LSE a_hx8k w0 in
  let e := Spawn "iceunpack" "my.bin my.asc" None in
  trace (snd r) !! 2%nat = Some e /\
  received (environ w0) e = Some (environ w0) /\
  environ w0 !! "SRCS" = None /\
  Icecube2_overlay a_hx8k (environ w0) !! "SRCS" = Some "a.v b.v" /\
  received (environ w0) e <> Some (Icecube2_overlay a_hx8k (environ w0)).
Proof.
  cbv zeta. split; [vm_compute; reflexivity |].
  split; [reflexivity |].
  split; [vm_compute; reflexivity |].
  split; [vm_compute; reflexivity |].
  intros E.
  apply (f_equal (fun o : option (gmap string string) =>
                    match o with Some m => m !! "SRCS" | None => None end))
    in E.
  vm_compute in E. discriminate E.
Qed.

(** C4 (as the code has it): [run] of the iCEcube2 and Radiant adapters
    never changes [os.environ].  The build script is spawned with a copy
    of the ambient environment overlaid with exactly SRCS, TOP, the tool
    directory key and the device-package key; [iceunpack] and [icetime]
    are spawned with no environment argument and so run in the ambient
    environment, without those keys. *)
Theorem C4_overlay_for_build_script_only D g c self w :
  trace w = [] -> runnable c self ->
  let r := adapter_run D g c self w in
  environ (snd r) = environ w /\
  (exists args,
      trace (snd r) !! 1%nat
      = Some (Spawn (build_script g c) args
                    (Some (overlay_of c self (environ w))))) /\
  Forall (fun e => forall prog args env,
              e = Spawn prog args env ->
              (prog = build_script g c /\
               env = Some (overlay_of c self (environ w))) \/
              (prog ∈ ["iceunpack"; "icetime"] /\ env = None))
         (trace (snd r)).
Proof.
  intros Ht Hr r. subst r.
  destruct (adapter_run_flow D g c self w Hr)
    as (args & k3 & v3 & k4 & targs & -> & ->).
  destruct (flow_spec D (build_script g c) args
              "SRCS" (PyStr.join " " (srcs self)) "TOP" (top self)
              k3 v3 k4 (device self +:+ "-" +:+ package self) targs w)
    as (a & b & Hs & Hh & _).
  cbv zeta in Hs, Hh. rewrite Hs, Ht. cbn [app].
  split; [| split].
  - unfold environ. rewrite Hh.
    rewrite lookup_insert_ne by (unfold os_environ; lia). reflexivity.
  - exists args. reflexivity.
  - apply flow_trace_environments.
Qed.

Lemma C4_overlay_for_build_script_only_witness :
  let r := adapter_run D0 g0 (CIcecube2 Icecube2LSE) a_hx8k w0 in
  environ (snd r) = environ w0 /\
  trace (snd r) !! 1%nat
  = Some (Spawn "/repo/icecubed.sh" "--syn lse"
            (Some (<["ICEDEV" := "hx8k-ct256"]>
                     (<["ICECUBEDIR" := "/opt/ice"]>
                        (<["TOP" := "top"]>
                           (<["SRCS" := "a.v b.v"]> (environ w0))))))).
Proof.
  destruct (C4_overlay_for_build_script_only D0 g0 (CIcecube2 Icecube2LSE)
              a_hx8k w0) as (He & (args & Ha) & _).
  - reflexivity.
  - exact I.
  - split; [exact He |]. vm_compute. reflexivity.
Defined.

(** ** Tool versions *)

Lemma Icecube2_asc_ver_lacks ls :
  lacks_marker "iCEcube2" ls -> Icecube2_asc_ver ls = inl AssertionError.
Proof.
  induction 1 as [|l ls Hl _ IH]; [reflexivity |].
  cbn [Icecube2_asc_ver]. now rewrite Hl.
Qed.

Lemma radiant_ver_lines_lacks ls :
  lacks_marker "ProductType" ls -> radiant_ver_lines ls = inl AssertionError.
Proof.
  induction 1 as [|l ls Hl _ IH]; [reflexivity |].
  cbn [radiant_ver_lines]. now rewrite Hl.
Qed.

(** A well-formed [my.asc] gives its version string. *)
Example Icecube2_asc_ver_sample :
  Icecube2_asc_ver [".comment"; "Lattice"; "iCEcube2 2017.08.27940";
                    "Part: iCE40HX1K-TQ144"]
  = inr "2017.08.27940".
Proof. reflexivity. Qed.

Example radiant_ver_lines_sample :
  radiant_ver_lines ["[Setup]"; "ProductType=1.0.0.350.6"]
  = inr "1.0.0.350.6".
Proof. reflexivity. Qed.

(** With [my.asc] present and no line starting with 'iCEcube2', the
    whole [versions] call fails on [assert 0]; with [my.asc] missing it
    fails as well, at the unbound name [yosys_ver].  In neither case is a
    mapping with a null entry returned. *)
Lemma C3_versions_fails_without_marker :
  fs w_nomarker !! "out/my.asc" = Some (File false [".comment"; "Lattice"]) /\
  Icecube2_versions a_hx8k w_nomarker = (inl AssertionError, w_nomarker) /\
  fs w0 !! "out/my.asc" = None /\
  Icecube2_versions a_hx8k w0 = (inl (NameError "yosys_ver"), w0).
Proof. repeat split; vm_compute; reflexivity. Qed.

(** C3 (as the code has it): the read of a version source is guarded for
    a missing file in the iCEcube2 flow only.  With [out_dir/my.asc]
    missing, the [try] block of [Icecube2.versions] does not fail and
    leaves the version of icecube2 null.  A [my.asc] that is present but
    has no line starting with 'iCEcube2' makes the whole [versions] call
    fail with an assertion error, and [Radiant.radiant_ver] fails in the
    same way on an [ispsys.ini] without a 'ProductType' line. *)
Theorem C3_version_read_null_for_missing_asc_only self w :
  (fs w !! (out_dir self +:+ "/my.asc") = None ->
   Icecube2_versions_asc self w = (inr None, w)) /\
  (forall x ls,
      fs w !! (out_dir self +:+ "/my.asc") = Some (File x ls) ->
      lacks_marker "iCEcube2" ls ->
      Icecube2_versions_asc self w = (inl AssertionError, w) /\
      Icecube2_versions self w = (inl AssertionError, w)) /\
  (forall x ls,
      fs w !! (radiantdir self +:+ "/data/ispsys.ini") = Some (File x ls) ->
      lacks_marker "ProductType" ls ->
      Radiant_radiant_ver self w = (inl AssertionError, w)).
Proof.
  split; [| split].
  - intros Hf.
    unfold Icecube2_versions_asc, except_FileNotFoundError, bind, py_open.
    rewrite Hf. reflexivity.
  - intros x ls Hf Hl.
    assert (Icecube2_versions_asc self w = (inl AssertionError, w)) as H.
    { unfold Icecube2_versions_asc, except_FileNotFoundError, bind, py_open,
        lift.
      rewrite Hf, (Icecube2_asc_ver_lacks ls Hl). reflexivity. }
    split; [exact H |]. unfold Icecube2_versions, bind. now rewrite H.
  - intros x ls Hf Hl.
    unfold Radiant_radiant_ver, bind, py_open, lift.
    rewrite Hf, (radiant_ver_lines_lacks ls Hl). reflexivity.
Qed.

Lemma C3_version_read_null_for_missing_asc_only_witness :
  Icecube2_versions_asc a_hx8k w0 = (inr None, w0) /\
  Icecube2_versions a_hx8k w_nomarker = (inl AssertionError, w_nomarker) /\
  Radiant_radiant_ver a_up5k w_nomarker = (inl AssertionError, w_nomarker).
Proof.
  destruct (C3_version_read_null_for_missing_asc_only a_hx8k w0)
    as (Habsent & _).
  destruct (C3_version_read_null_for_missing_asc_only a_hx8k w_nomarker)
    as (_ & Hice & _).
  destruct (C3_version_read_null_for_missing_asc_only a_up5k w_nomarker)
    as (_ & _ & Hrad).
  split; [| split].
  - apply Habsent; reflexivity.
  - apply (Hice false [".comment"; "Lattice"]); [reflexivity |].
    repeat constructor.
  - apply (Hrad false ["[Setup]"]); [reflexivity |].
    repeat constructor.
Defined.

(** ** Capability reports *)

Lemma is_exe_spec p w :
  exists b, is_exe p w = (inr b, w) /\
            (b = true <-> exists ls, fs w !! p = Some (File true ls)).
Proof.
  unfold is_exe, bind, os_path_isfile, os_access_x, ret.
  destruct (fs w !! p) as [[|[|] ls]|] eqn:E; cbn; rewrite ?E.
  - exists false. split; [reflexivity |].
    split; [discriminate | intros [ls' E']; discriminate E'].
  - exists true. split; [reflexivity |]. split; [now exists ls | reflexivity].
  - exists false. split; [reflexivity |].
    split; [discriminate | intros [ls' E']; discriminate E'].
  - exists false. split; [reflexivity |].
    split; [discriminate | intros [ls' E']; discriminate E'].
Qed.

Lemma which_loop_spec program paths w :
  exists r, which_loop program paths w = (inr r, w) /\
            (is_Some r <->
             exists d ls, d ∈ paths /\
                          fs w !! OsPath.join d program = Some (File true ls)).
Proof.
  induction paths as [|d paths (r & IH & Hr)].
  - exists None. split; [reflexivity |]. split.
    + intros [x E]; discriminate E.
    + intros (d & ls & Hd & _). now apply elem_of_nil in Hd.
  - cbn [which_loop].
    destruct (is_exe_spec (OsPath.join d program) w) as (b & Hb & Hx).
    unfold bind. rewrite Hb. destruct b.
    + exists (Some (OsPath.join d program)). split; [reflexivity |].
      split; [| intros _; now eexists].
      intros _. destruct (proj1 Hx eq_refl) as [ls Hls].
      exists d, ls. split; [apply elem_of_cons; now left | exact Hls].
    + exists r. split; [exact IH |]. rewrite Hr. split.
      * intros (d' & ls & Hd & Hf). exists d', ls.
        split; [apply elem_of_cons; now right | exact Hf].
      * intros (d' & ls & Hd & Hf).
        apply elem_of_cons in Hd as [-> | Hd].
        -- assert (false = true) as E by (apply Hx; now exists ls).
           discriminate E.
        -- now exists d', ls.
Qed.

(** [have_exec] on a bare program name, when PATH is defined: it reads
    the host only, and tells whether the program is on the search path. *)
Lemma have_exec_spec name w PATH :
  fst (OsPath.split name) = "" ->
  environ w !! "PATH" = Some PATH ->
  exists b, have_exec name w = (inr b, w) /\
            (b = true <-> present w PATH (ReqExec name)).
Proof.
  intros Hn HP. unfold have_exec, which.
  destruct (OsPath.split name) as [fpath fname]. cbn [fst] in Hn. subst fpath.
  cbn [PyStr.truthy]. unfold bind at 1. unfold bind at 1.
  unfold dict_getitem. fold (environ w). rewrite HP.
  destruct (which_loop_spec name (PyStr.split_on ":" PATH) w) as (r & -> & Hr).
  cbn [ret]. eexists. split; [reflexivity |].
  cbn [present]. rewrite <- Hr. destruct r; split; try discriminate; eauto.
  intros [x E]; discriminate E.
Qed.

Lemma os_path_exists_spec p w :
  exists b, os_path_exists p w = (inr b, w) /\
            (b = true <-> present w "" (ReqPath p)).
Proof.
  unfold os_path_exists. cbn [present].
  destruct (fs w !! p); eexists; (split; [reflexivity |]); split;
    try discriminate; eauto.
  intros [x E]; discriminate E.
Qed.

(** C5 (the code at a failing input): on a host whose environment does
    not define PATH and which has no executable at all, the capability
    query of [Icecube2Synpro] raises [KeyError] where the missing
    [icetime] should have given the value False: [which] reads
    [os.environ["PATH"]] unguarded. *)
Theorem C5_check_env_raises_without_PATH :
  environ w_nopath !! "PATH" = None /\
  fs w_nopath = ∅ /\
  check_env_of D0 g0 (CIcecube2 Icecube2Synpro) w_nopath
    = (inl (KeyError "PATH"), w_nopath).
Proof. split; [| split]; vm_compute; reflexivity. Qed.

Ltac probe_exec name w PATH HP b Hb Hp :=
  destruct (have_exec_spec name w PATH eq_refl HP) as (b & Hb & Hp);
  unfold bind at 1; rewrite Hb.

Ltac report_tac :=
  unfold reports;
  repeat (constructor; [split; [reflexivity | assumption] |]);
  constructor.

Ltac probe_path p w b Hb Hp :=
  destruct (os_path_exists_spec p w) as (b & Hb & Hp);
  unfold bind at 1; rewrite Hb.

(** On a host whose environment defines PATH, [check_env] of every class
    of this file returns a mapping and leaves the host as it was, so that
    a second call returns the same mapping; the keys are the fixed
    requirement names of the class, and each value is true exactly when
    the directory exists, respectively an executable file of that name is
    in a directory of PATH.  A missing executable gives the value false. *)
Theorem check_env_reports_presence D g c w PATH :
  in_file c = true ->
  environ w !! "PATH" = Some PATH ->
  exists m,
    check_env_of D g c w = (inr m, w) /\
    (let* m1 := check_env_of D g c in
     let* m2 := check_env_of D g c in
     ret (m1, m2)) w = (inr (m, m), w) /\
    map fst m = map fst (requirements g c) /\
    reports w PATH m (requirements g c).
Proof.
  intros Hc HP.
  assert (exists m, check_env_of D g c w = (inr m, w) /\
                    reports w PATH m (requirements g c)) as (m & Hm & Hr).
  { destruct c as [i|[| |]|r]; [discriminate | | | |];
      cbn [check_env_of requirements Icecube2_requirements];
      unfold Icecube2Synpro_check_env, Icecube2LSE_check_env,
        Icecube2Yosys_check_env, Radiant_check_env, Radiant_requirements.
    - probe_path (ICECUBEDIR_DEFAULT g) w b1 Hb1 Hp1.
      probe_exec "icetime" w PATH HP b2 Hb2 Hp2.
      eexists. split; [reflexivity |]. report_tac.
    - probe_path (ICECUBEDIR_DEFAULT g) w b1 Hb1 Hp1.
      probe_exec "icetime" w PATH HP b2 Hb2 Hp2.
      eexists. split; [reflexivity |]. report_tac.
    - probe_exec "yosys" w PATH HP b0 Hb0 Hp0.
      probe_path (ICECUBEDIR_DEFAULT g) w b1 Hb1 Hp1.
      probe_exec "icetime" w PATH HP b2 Hb2 Hp2.
      eexists. split; [reflexivity |]. report_tac.
    - probe_path (RADIANTDIR_DEFAULT g) w b1 Hb1 Hp1.
      probe_exec "iceunpack" w PATH HP b0 Hb0 Hp0.
      probe_exec "icetime" w PATH HP b2 Hb2 Hp2.
      eexists. split; [reflexivity |]. report_tac. }
  exists m. split; [exact Hm |]. split; [| split; [| exact Hr]].
  - unfold bind. rewrite Hm, Hm. reflexivity.
  - clear Hm. unfold reports in Hr.
    induction Hr as [|[k v] [k' r] m rs [Hk _] _ IH]; [reflexivity |].
    cbn in Hk |- *. now rewrite Hk, IH.
Qed.

Lemma check_env_reports_presence_at_w0 :
  check_env_of D0 g0 (CIcecube2 Icecube2Yosys) w0
    = (inr [("yosys", false); ("ICECUBEDIR", false); ("icetime", true)], w0).
Proof.
  destruct (check_env_reports_presence D0 g0 (CIcecube2 Icecube2Yosys) w0
              "/usr/bin:/bin") as (m & Hm & _).
  - reflexivity.
  - vm_compute. reflexivity.
  - rewrite Hm. f_equal.
    assert (fst (check_env_of D0 g0 (CIcecube2 Icecube2Yosys) w0) = inr m) as E
        by now rewrite Hm.
    vm_compute in E. congruence.
Defined.

(** ** [env_ready] *)

Lemma which_loop_readonly program paths w :
  snd (which_loop program paths w) = w.
Proof.
  destruct (which_loop_spec program paths w) as (r & -> & _). reflexivity.
Qed.

Lemma have_exec_readonly name w : snd (have_exec name w) = w.
Proof.
  unfold have_exec, which.
  destruct (OsPath.split name) as [fpath fname].
  destruct (PyStr.truthy fpath).
  - destruct (is_exe_spec name w) as (b & Hb & _).
    unfold bind. rewrite Hb. now destruct b.
  - unfold bind, dict_getitem.
    destruct (default ∅ (heap w !! os_environ) !! "PATH") as [P|];
      [| reflexivity].
    pose proof (which_loop_readonly name (PyStr.split_on ":" P) w) as H.
    destruct (which_loop name (PyStr.split_on ":" P) w) as [[e|r] w'];
      cbn in H |- *; now subst.
Qed.

Lemma bind_readonly {A B} (m : M A) (k : A -> M B) w :
  snd (m w) = w -> (forall a, snd (k a w) = w) -> snd (bind m k w) = w.
Proof.
  intros Hm Hk. unfold bind. destruct (m w) as [[e|a] w']; cbn in Hm; subst.
  - reflexivity.
  - apply Hk.
Qed.

(** A capability query only reads the host. *)
Lemma check_env_of_readonly D g c w : snd (check_env_of D g c w) = w.
Proof.
  destruct c as [i|[| |]|r]; cbn [check_env_of]; [reflexivity | | | |];
    unfold Icecube2Synpro_check_env, Icecube2LSE_check_env,
      Icecube2Yosys_check_env, Radiant_check_env;
    repeat (apply bind_readonly;
            [first [apply have_exec_readonly | reflexivity] | intros ?]);
    reflexivity.
Qed.

Lemma has_unmet_false (m : list (string * bool)) :
  has_unmet (map snd m) = false <-> forall k v, (k, v) ∈ m -> v = true.
Proof.
  induction m as [|[k v] m IH]; cbn [map has_unmet snd].
  - split; [| reflexivity]. intros _ k v H. now apply elem_of_nil in H.
  - destruct v; cbn [negb].
    + rewrite IH. split.
      * intros H k' v' Hin. apply elem_of_cons in Hin as [E | Hin].
        -- now injection E as -> ->.
        -- now apply (H k').
      * intros H k' v' Hin. apply (H k'). apply elem_of_cons. now right.
    + split; [discriminate |]. intros H.
      symmetry. apply (H k). apply elem_of_cons. now left.
Qed.

(** The loop of [env_ready] over a list of classes. *)
Lemma env_ready_loop_spec D g tcs w :
  snd (env_ready_loop D g tcs w) = w /\
  (fst (env_ready_loop D g tcs w) = inr true <->
   Forall (fun c => exists m, check_env_of D g c w = (inr m, w) /\
                              forall k v, (k, v) ∈ m -> v = true) tcs) /\
  (Forall (fun c => exists m, check_env_of D g c w = (inr m, w)) tcs ->
   Exists (fun c => exists m k, check_env_of D g c w = (inr m, w) /\
                                (k, false) ∈ m) tcs ->
   fst (env_ready_loop D g tcs w) = inr false).
Proof.
  induction tcs as [|c tcs (IHw & IHt & IHf)]; cbn [env_ready_loop].
  - split; [reflexivity | split].
    + split; [constructor | reflexivity].
    + intros _ H. inversion H.
  - pose proof (check_env_of_readonly D g c w) as Hro.
    unfold bind.
    destruct (check_env_of D g c w) as [[e|m] w'] eqn:Hc; cbn in Hro; subst w'.
    + split; [reflexivity | split].
      * split; [discriminate |]. intros H. inversion H as [|? ? (m & E & _)].
        congruence.
      * intros H. inversion H as [|? ? (m & E)]. congruence.
    + destruct (has_unmet (map snd m)) eqn:Hu.
      * split; [reflexivity | split].
        -- split; [discriminate |]. intros H.
           inversion H as [|? ? (m' & E & Hall)].
           assert (m' = m) as -> by congruence.
           apply has_unmet_false in Hall. congruence.
        -- reflexivity.
      * split; [exact IHw | split].
        -- rewrite IHt. split.
           ++ intros H. constructor; [| exact H].
              exists m. split; [exact Hc |]. now apply has_unmet_false.
           ++ intros H. now inversion H.
        -- intros Hall Hex. apply IHf; [now inversion Hall |].
           inversion Hex as [? ? (m' & k & E & Hin)|]; [| assumption].
           assert (m' = m) as -> by congruence.
           assert (false = true) as F
               by (apply (proj1 (has_unmet_false m) Hu k); exact Hin).
           discriminate F.
Qed.

Lemma Forall_registry (P : cls -> Prop) :
  Forall P (map snd toolchains) <->
  forall name c, (name, c) ∈ toolchains -> P c.
Proof.
  rewrite Forall_forall. split.
  - intros H name c Hin. apply H.
    apply list_elem_of_In, in_map_iff. exists (name, c).
    split; [reflexivity | now apply list_elem_of_In].
  - intros H c Hin. apply list_elem_of_In, in_map_iff in Hin
      as ([name c'] & E & Hin).
    cbn in E. subst c'. apply (H name). now apply list_elem_of_In.
Qed.

(** C9: [env_ready] returns True exactly when the capability query of
    every registered class returns a mapping all of whose values are
    true.  When every query returns a mapping, a single false value in
    the mapping of any one registered class makes [env_ready] return
    False. *)
Theorem C9_env_ready_iff_all_met D g w :
  (fst (env_ready D g w) = inr true <->
   forall name c,
     (name, c) ∈ toolchains ->
     exists m, check_env_of D g c w = (inr m, w) /\
               forall k v, (k, v) ∈ m -> v = true) /\
  ((forall name c,
       (name, c) ∈ toolchains ->
       exists m, check_env_of D g c w = (inr m, w)) ->
   forall name c m k,
     (name, c) ∈ toolchains ->
     check_env_of D g c w = (inr m, w) ->
     (k, false) ∈ m ->
     fst (env_ready D g w) = inr false).
Proof.
  unfold env_ready.
  destruct (env_ready_loop_spec D g (map snd toolchains) w) as (_ & Ht & Hf).
  split.
  - rewrite Ht. apply Forall_registry.
  - intros Hall name c m k Hin Hc Hk. apply Hf.
    + now apply Forall_registry.
    + apply Exists_exists. exists c. split.
      * apply list_elem_of_In, in_map_iff. exists (name, c).
        split; [reflexivity | now apply list_elem_of_In].
      * now exists m, k.
Qed.

Ltac each_registered Hin tac :=
  repeat (apply elem_of_cons in Hin as [Hin | Hin];
          [injection Hin as -> ->; tac |]);
  apply elem_of_nil in Hin; destruct Hin.

Ltac all_values_true :=
  let k := fresh "k" in
  let v := fresh "v" in
  let H := fresh "H" in
  intros k v H;
  repeat (apply elem_of_cons in H as [H | H];
          [injection H as _ ->; reflexivity |]);
  apply elem_of_nil in H; destruct H.

Lemma C9_env_ready_iff_all_met_witness :
  fst (env_ready D0 g0 w_full) = inr true /\
  fst (env_ready D0 g0 w0) = inr false.
Proof.
  split.
  - apply (proj1 (C9_env_ready_iff_all_met D0 g0 w_full)).
    intros name c Hin. unfold toolchains in Hin.
    each_registered Hin
      ltac:(eexists; split; [vm_compute; reflexivity | all_values_true]).
  - apply (proj2 (C9_env_ready_iff_all_met D0 g0 w0)) with
      (name := "icecube2-synpro") (c := CIcecube2 Icecube2Synpro)
      (m := [("ICECUBEDIR", false); ("icetime", true)]) (k := "ICECUBEDIR").
    + intros name c Hin. unfold toolchains in Hin.
      each_registered Hin ltac:(eexists; vm_compute; reflexivity).
    + unfold toolchains. rewrite !elem_of_cons. do 5 right. now left.
    + vm_compute. reflexivity.
    + apply elem_of_cons. now left.
Defined.

(** * Further properties *)

(** ** [which] *)


Lemma rev_app_empty s t : String.rev_app s t = "" <-> s = "" /\ t = "".
Proof.
  revert t. induction s as [|a s IH]; intros t; cbn [String.rev_app].
  - split; [intros ->; now split | now intros [_ ->]].
  - rewrite IH. split; [intros [_ E]; discriminate E | intros [E _]; discriminate E].
Qed.

Lemma lstrip_slash_cons a s :
  PyStr.lstrip_slash (String a s) = "" <-> a = "/"%char /\ PyStr.lstrip_slash s = "".
Proof.
  cbn [PyStr.lstrip_slash]. destruct (Ascii.eqb a "/") eqn:E.
  - apply Ascii.eqb_eq in E. subst a. tauto.
  - apply Ascii.eqb_neq in E. split; [discriminate | now intros [E' _]].
Qed.

Lemma lstrip_slash_rev_app s t :
  PyStr.lstrip_slash (String.rev_app s t) = "" <->
  PyStr.lstrip_slash s = "" /\ PyStr.lstrip_slash t = "".
Proof.
  revert t. induction s as [|a s IH]; intros t; cbn [String.rev_app].
  - cbn. tauto.
  - rewrite IH, !lstrip_slash_cons. tauto.
Qed.

Lemma append_empty s t : s +:+ t = "" <-> s = "" /\ t = "".
Proof.
  destruct s as [|a s].
  - change ("" +:+ t) with t.
    split; [intros ->; now split | now intros [_ ->]].
  - change (String a s +:+ t) with (String a (s +:+ t)).
    split; [discriminate | intros [E _]; discriminate E].
Qed.

Lemma split_go_head head acc s :
  fst (OsPath.split_go head acc s) = "" <->
  head = "" /\ contains "/" s = false.
Proof.
  revert head acc. induction s as [|a s IH]; intros head acc;
    cbn [OsPath.split_go contains fst].
  - tauto.
  - destruct (Ascii.eqb a "/"); cbn [orb].
    + rewrite IH, !append_empty.
      split; [intros [(_ & _ & E) _]; discriminate E | intros [_ E]; discriminate E].
    + apply IH.
Qed.

(** [os.path.split] gives an empty head exactly for a path without
    slash. *)
Lemma split_head_empty p :
  fst (OsPath.split p) = "" <-> contains "/" p = false.
Proof.
  unfold OsPath.split.
  pose proof (split_go_head "" "" p) as H.
  destruct (OsPath.split_go "" "" p) as [head tail]. cbn [fst] in H |- *.
  transitivity (head = ""); [| rewrite H; tauto].
  destruct (PyStr.lstrip_slash head) eqn:E; [tauto |].
  unfold PyStr.rstrip_slash, String.rev. rewrite rev_app_empty.
  split.
  - intros [E' _]. 
    assert (PyStr.lstrip_slash (String.rev_app head "") = "") as F by exact E'.
    apply lstrip_slash_rev_app in F as [F _]. rewrite F in E. discriminate E.
  - intros ->. discriminate E.
Qed.


Lemma executable_file_is_exe p w :
  exists b, is_exe p w = (inr b, w) /\ (b = true <-> executable_file w p).
Proof. apply is_exe_spec. Qed.

(** The loop of [which] returns the candidate of the first directory, in
    the order of the list, that holds an executable file of that name. *)
Lemma which_loop_first program paths w :
  (forall pre d post,
      paths = (pre ++ d :: post)%list ->
      (forall d', d' ∈ pre -> ~ executable_file w (OsPath.join d' program)) ->
      executable_file w (OsPath.join d program) ->
      which_loop program paths w = (inr (Some (OsPath.join d program)), w)) /\
  ((forall d, d ∈ paths -> ~ executable_file w (OsPath.join d program)) ->
   which_loop program paths w = (inr None, w)).
Proof.
  induction paths as [|p paths [IHf IHn]]; split.
  - intros pre d post E. now destruct pre.
  - reflexivity.
  - intros pre d post E Hpre Hd. cbn [which_loop].
    destruct (executable_file_is_exe (OsPath.join p program) w)
      as (b & Hb & Hx).
    unfold bind. rewrite Hb. destruct pre as [|p' pre]; cbn in E.
    + injection E as -> ->.
      assert (b = true) as -> by now apply Hx. reflexivity.
    + injection E as -> ->.
      destruct b.
      * exfalso. apply (Hpre p'); [apply elem_of_cons; now left |].
        now apply Hx.
      * apply (IHf pre d post); [reflexivity | | exact Hd].
        intros d' Hin. apply Hpre. apply elem_of_cons. now right.
  - intros Hnone. cbn [which_loop].
    destruct (executable_file_is_exe (OsPath.join p program) w)
      as (b & Hb & Hx).
    unfold bind. rewrite Hb. destruct b.
    + exfalso. apply (Hnone p); [apply elem_of_cons; now left |].
      now apply Hx.
    + apply IHn. intros d Hin. apply Hnone. apply elem_of_cons. now right.
Qed.

Lemma which_bare program w PATH :
  contains "/" program = false ->
  environ w !! "PATH" = Some PATH ->
  which program w = which_loop program (PyStr.split_on ":" PATH) w.
Proof.
  intros Hn HP. apply split_head_empty in Hn. unfold which.
  destruct (OsPath.split program) as [fpath fname]. cbn [fst] in Hn.
  subst fpath. cbn [PyStr.truthy]. unfold bind, dict_getitem.
  fold (environ w). rewrite HP. reflexivity.
Qed.

(** X1: for a program name without slash and a defined PATH,
    [which] returns the path in the first PATH directory, in the order of
    PATH, that holds an executable regular file of that name; it returns
    [None] when no directory of PATH holds one.  The host is left as it
    was. *)
Theorem which_first_on_PATH program w PATH :
  contains "/" program = false ->
  environ w !! "PATH" = Some PATH ->
  (forall pre d post,
      PyStr.split_on ":" PATH = (pre ++ d :: post)%list ->
      (forall d', d' ∈ pre -> ~ executable_file w (OsPath.join d' program)) ->
      executable_file w (OsPath.join d program) ->
      which program w = (inr (Some (OsPath.join d program)), w)) /\
  ((forall d, d ∈ PyStr.split_on ":" PATH ->
              ~ executable_file w (OsPath.join d program)) ->
   which program w = (inr None, w)).
Proof.
  intros Hn HP. rewrite (which_bare program w PATH Hn HP).
  apply which_loop_first.
Qed.

Lemma which_first_on_PATH_witness :
  which "icetime" w0 = (inr (Some "/bin/icetime"), w0) /\
  which "yosys" w0 = (inr None, w0).
Proof.
  destruct (which_first_on_PATH "icetime" w0 "/usr/bin:/bin" eq_refl)
    as [Hf _]; [vm_compute; reflexivity |].
  destruct (which_first_on_PATH "yosys" w0 "/usr/bin:/bin" eq_refl)
    as [_ Hn]; [vm_compute; reflexivity |].
  split.
  - apply (Hf ["/usr/bin"] "/bin" []); [reflexivity | |].
    + intros d' Hd [ls E]. apply list_elem_of_singleton in Hd as ->.
      vm_compute in E. discriminate E.
    + exists []. vm_compute. reflexivity.
  - apply Hn. intros d Hd [ls E]. vm_compute in Hd.
    apply elem_of_cons in Hd as [-> | Hd];
      [| apply list_elem_of_singleton in Hd as ->];
      vm_compute in E; discriminate E.
Defined.

(** X2: for a program given with a directory part (a path that contains
    a slash), [which] never looks at the environment: it returns the
    program itself when it is an executable regular file and [None]
    otherwise, also when PATH is not defined. *)
Theorem which_with_directory program w :
  contains "/" program = true ->
  (executable_file w program ->
   which program w = (inr (Some program), w)) /\
  (~ executable_file w program -> which program w = (inr None, w)).
Proof.
  intros Hs. unfold which.
  destruct (OsPath.split program) as [fpath fname] eqn:E.
  assert (PyStr.truthy fpath = true) as ->.
  { destruct fpath; [| reflexivity].
    assert (fst (OsPath.split program) = "") as F by now rewrite E.
    apply split_head_empty in F. congruence. }
  destruct (executable_file_is_exe program w) as (b & Hb & Hx).
  unfold bind. rewrite Hb. split; intros H.
  - assert (b = true) as -> by now apply Hx. reflexivity.
  - destruct b; [exfalso; now apply H, Hx | reflexivity].
Qed.

Lemma which_with_directory_witness :
  which "/bin/icetime" (mkWorld {[ os_environ := ∅ ]} 0
                                {[ "/bin/icetime" := File true [] ]} [])
  = (inr (Some "/bin/icetime"),
     mkWorld {[ os_environ := ∅ ]} 0 {[ "/bin/icetime" := File true [] ]} []) /\
  which "./icetime" w_nopath = (inr None, w_nopath).
Proof.
  split.
  - apply which_with_directory; [reflexivity |].
    exists []. vm_compute. reflexivity.
  - apply which_with_directory; [reflexivity |].
    intros [ls E]. vm_compute in E. discriminate E.
Defined.

(** ** The flows, case by case *)

(** What the common body of the two [run] methods does, for each way
    the three processes can end.  Each process sees the files the
    previous one left; [iceunpack] and [icetime] run in the ambient
    environment. *)
Lemma flow_cases D script args k1 v1 k2 v2 k3 v3 k4 v4 targs w :
  let env := <[k4:=v4]> (<[k3:=v3]> (<[k2:=v2]> (<[k1:=v1]> (environ w)))) in
  let o1 := spawn_process D script args env (fs w) in
  let o2 := spawn_process D "iceunpack" "my.bin my.asc" (environ w) (snd o1) in
  let o3 := spawn_process D "icetime" targs (environ w) (snd o2) in
  let build := [StageOpen "bit-all"; Spawn script args (Some env)] in
  let unpack := Spawn "iceunpack" "my.bin my.asc" None in
  flow D script args k1 v1 k2 v2 k3 v3 k4 v4 targs w =
  if fst o1 then
    if fst o2 then
      (if fst o3 then inr tt else inl (CalledProcessError "icetime"),
       after_flow w env (snd o3)
         (build ++ [unpack; StageClose "bit-all"; Spawn "icetime" targs None]))
    else
      (inl (CalledProcessError "iceunpack"),
       after_flow w env (snd o2) (build ++ [unpack; StageClose "bit-all"]))
  else
    (inl (CalledProcessError script),
     after_flow w env (snd o1) (build ++ [StageClose "bit-all"])).
Proof.
  cbv zeta. unfold flow, Timed, after_flow.
  unfold bind, dict_copy, dict_setitem, emit. cbn [heap next fs trace].
  rewrite !lookup_insert_eq. cbn [default from_option id].
  rewrite !insert_insert_eq. fold (environ w).
  rewrite Toolchain_cmd_spec. cbn [heap next fs trace fst snd].
  rewrite lookup_insert_eq. cbn [default from_option id].
  destruct (spawn_process D script args _ _) as [[|] fs1]; cbn [fst snd].
  - rewrite Toolchain_cmd_spec. cbn [heap next fs trace fst snd].
    assert (forall f t,
               environ (mkWorld (<[S (next w) := <[k4:=v4]> (<[k3:=v3]>
                         (<[k2:=v2]> (<[k1:=v1]> (environ w))))]> (heap w))
                         (S (next w)) f t) = environ w) as Henv.
    { intros f t. unfold environ. cbn [heap].
      rewrite lookup_insert_ne by (unfold os_environ; lia). reflexivity. }
    rewrite Henv. cbn [default from_option id].
    destruct (spawn_process D "iceunpack" _ _ _) as [[|] fs2]; cbn [fst snd].
    + rewrite Toolchain_cmd_spec. cbn [heap next fs trace fst snd].
      rewrite Henv. cbn [default from_option id].
      destruct (spawn_process D "icetime" _ _ _) as [ok3 fs3]; cbn [fst snd].
      rewrite <- !app_assoc. reflexivity.
    + cbn [heap next fs trace]. rewrite <- !app_assoc. reflexivity.
  - cbn [heap next fs trace]. rewrite <- !app_assoc. reflexivity.
Qed.

Lemma adapter_run_is_flow D g c self w :
  runnable c self ->
  exists k3 v3 k4,
    adapter_run D g c self w =
    flow D (build_script g c) (flow_args c self)
         "SRCS" (PyStr.join " " (srcs self)) "TOP" (top self)
         k3 v3 k4 (device self +:+ "-" +:+ package self)
         (icetime_args c self) w /\
    overlay_of c self (environ w) =
    <[k4 := device self +:+ "-" +:+ package self]>
      (<[k3 := v3]>
        (<["TOP" := top self]>
          (<["SRCS" := PyStr.join " " (srcs self)]> (environ w)))).
Proof.
  destruct c as [i|i|r]; cbn [runnable adapter_run]; intros H.
  - destruct H.
  - eexists _, _, _. rewrite Icecube2_run_flow. split; reflexivity.
  - apply Radiant_supported_spec in H.
    eexists _, _, _. rewrite Radiant_run_flow, H. split; reflexivity.
Qed.

(** X3: when the build script of an iCEcube2 or Radiant run exits with a
    non-zero status, [run] raises the error of that command; the
    'bit-all' stage is closed all the same, and neither [iceunpack] nor
    [icetime] is spawned.  When the script succeeds and [iceunpack]
    fails, [run] raises the error of [iceunpack] and [icetime] is not
    spawned. *)
Theorem run_stops_at_first_failure D g c self w :
  runnable c self ->
  let env := overlay_of c self (environ w) in
  let script := build_script g c in
  let o1 := spawn_process D script (flow_args c self) env (fs w) in
  let o2 := spawn_process D "iceunpack" "my.bin my.asc" (environ w) (snd o1) in
  (fst o1 = false ->
   adapter_run D g c self w =
   (inl (CalledProcessError script),
    after_flow w env (snd o1)
      [StageOpen "bit-all"; Spawn script (flow_args c self) (Some env);
       StageClose "bit-all"])) /\
  (fst o1 = true -> fst o2 = false ->
   adapter_run D g c self w =
   (inl (CalledProcessError "iceunpack"),
    after_flow w env (snd o2)
      [StageOpen "bit-all"; Spawn script (flow_args c self) (Some env);
       Spawn "iceunpack" "my.bin my.asc" None; StageClose "bit-all"])).
Proof.
  intros Hr. cbv zeta.
  destruct (adapter_run_is_flow D g c self w Hr) as (k3 & v3 & k4 & -> & ->).
  rewrite flow_cases. cbv zeta. split.
  - intros ->. reflexivity.
  - intros -> ->. reflexivity.
Qed.

(** Collaborators whose build script fails. *)
Lemma run_stops_at_first_failure_witness :
  let D := mkDeps Z unit
             (fun prog _ _ f => (String.eqb prog "iceunpack", f))
             (icetime_parse D0) (icebox_stat D0)
             (realpath D0) (json_load D0) (auto_out_dir D0)
             (new_imported D0) (imported_run D0) (imported_max_freq D0)
             (imported_resources D0) (imported_check_env D0)
             (write_metadata D0) in
  fst (adapter_run D g0 (CIcecube2 Icecube2LSE) a_hx8k w0)
    = inl (CalledProcessError "/repo/icecubed.sh") /\
  trace (snd (adapter_run D g0 (CIcecube2 Icecube2LSE) a_hx8k w0)) !! 2%nat
    = Some (StageClose "bit-all") /\
  length (trace (snd (adapter_run D g0 (CIcecube2 Icecube2LSE) a_hx8k w0)))
    = 3%nat.
Proof.
  cbv zeta.
  match goal with |- context [adapter_run ?D _ _ _ _] => set (D1 := D) end.
  destruct (run_stops_at_first_failure D1 g0 (CIcecube2 Icecube2LSE)
              a_hx8k w0 I) as [H _].
  cbv zeta in H. rewrite H by reflexivity.
  repeat split.
Defined.

(** X4: an iCEcube2 or Radiant run succeeds exactly when the build
    script, [iceunpack] and [icetime] all exit with status zero; it has
    then spawned exactly these three processes, in this order, each on
    the files the previous one left, the first with the overlaid
    environment and the other two with none.  The Radiant flow calls
    [icetime] for the up5k device whatever the adapter's device is. *)
Theorem run_succeeds_iff_all_exit_zero D g c self w :
  runnable c self ->
  let env := overlay_of c self (environ w) in
  let script := build_script g c in
  let o1 := spawn_process D script (flow_args c self) env (fs w) in
  let o2 := spawn_process D "iceunpack" "my.bin my.asc" (environ w) (snd o1) in
  let o3 := spawn_process D "icetime" (icetime_args c self) (environ w)
                          (snd o2) in
  (fst (adapter_run D g c self w) = inr tt <->
   fst o1 = true /\ fst o2 = true /\ fst o3 = true) /\
  (fst (adapter_run D g c self w) = inr tt ->
   snd (adapter_run D g c self w) =
   after_flow w env (snd o3)
     [StageOpen "bit-all"; Spawn script (flow_args c self) (Some env);
      Spawn "iceunpack" "my.bin my.asc" None; StageClose "bit-all";
      Spawn "icetime" (icetime_args c self) None]).
Proof.
  intros Hr. cbv zeta.
  destruct (adapter_run_is_flow D g c self w Hr) as (k3 & v3 & k4 & -> & ->).
  rewrite flow_cases. cbv zeta.
  destruct (fst (spawn_process D (build_script g c) _ _ _)).
  - destruct (fst (spawn_process D "iceunpack" _ _ _)).
    + destruct (fst (spawn_process D "icetime" _ _ _)); cbn [fst snd].
      * split; [tauto | reflexivity].
      * split; [| discriminate].
        split; [discriminate | intros (_ & _ & E); discriminate E].
    + cbn [fst snd]. split; [| discriminate].
      split; [discriminate | intros (_ & E & _); discriminate E].
  - cbn [fst snd]. split; [| discriminate].
    split; [discriminate | intros (E & _); discriminate E].
Qed.

Lemma run_succeeds_iff_all_exit_zero_witness :
  fst (adapter_run D0 g0 (CRadiant RadiantSynpro) a_up5k w0) = inr tt /\
  trace (snd (adapter_run D0 g0 (CRadiant RadiantSynpro) a_up5k w0)) !! 4%nat
    = Some (Spawn "icetime" "-tmd up5k my.asc" None).
Proof.
  assert (runnable (CRadiant RadiantSynpro) a_up5k) as Hr
      by (apply Radiant_supported_spec; reflexivity).
  destruct (run_succeeds_iff_all_exit_zero D0 g0 (CRadiant RadiantSynpro)
              a_up5k w0 Hr) as [Hiff Hw].
  cbv zeta in Hiff, Hw.
  assert (fst (adapter_run D0 g0 (CRadiant RadiantSynpro) a_up5k w0) = inr tt)
    as Hok by (apply Hiff; repeat split).
  split; [exact Hok |]. rewrite (Hw Hok). reflexivity.
Defined.

(** ** Strings: reversal, fields, stripping *)

Lemma rev_app_rev_app s t u :
  String.rev_app (String.rev_app s t) u = String.rev_app t (s +:+ u).
Proof.
  revert t u. induction s as [|a s IH]; intros t u.
  - reflexivity.
  - cbn [String.rev_app]. rewrite IH. reflexivity.
Qed.

Lemma append_empty_r s : s +:+ "" = s.
Proof.
  induction s as [|a s IH]; [reflexivity |].
  change (String a s +:+ "") with (String a (s +:+ "")). now rewrite IH.
Qed.

Lemma rev_involutive s : String.rev (String.rev s) = s.
Proof.
  unfold String.rev. rewrite rev_app_rev_app. cbn [String.rev_app].
  apply append_empty_r.
Qed.

Lemma no_space_rev_app s t :
  no_space (String.rev_app s t) = no_space s && no_space t.
Proof.
  revert t. induction s as [|a s IH]; intros t; cbn [String.rev_app no_space].
  - reflexivity.
  - rewrite IH. cbn [no_space].
    destruct (PyStr.is_space a), (no_space s), (no_space t); reflexivity.
Qed.

Lemma lstrip_no_space s : no_space s = true -> PyStr.lstrip s = s.
Proof.
  destruct s as [|a s]; [reflexivity |]. cbn [no_space PyStr.lstrip].
  now destruct (PyStr.is_space a).
Qed.

(** Stripping a string without white space changes nothing. *)
Lemma strip_no_space s : no_space s = true -> PyStr.strip s = s.
Proof.
  intros H. unfold PyStr.strip, PyStr.rstrip.
  rewrite (lstrip_no_space s H), lstrip_no_space.
  - apply rev_involutive.
  - unfold String.rev. rewrite no_space_rev_app, H. reflexivity.
Qed.

(** The fields of [s.split()] are not empty and hold no white space. *)
Lemma split_ws_go_fields cur s :
  match cur with
  | Some w => w <> "" /\ no_space w = true
  | None => True
  end ->
  Forall (fun t => t <> "" /\ no_space t = true) (PyStr.split_ws_go cur s).
Proof.
  assert (forall w, w <> "" -> no_space w = true ->
                    String.rev w <> "" /\ no_space (String.rev w) = true)
    as Hrev.
  { intros w Hne Hns. unfold String.rev. split.
    - rewrite rev_app_empty. now intros [E _].
    - rewrite no_space_rev_app, Hns. reflexivity. }
  revert cur. induction s as [|a s IH]; intros cur Hcur;
    cbn [PyStr.split_ws_go].
  - destruct cur as [w|]; [| constructor].
    constructor; [| constructor]. now apply Hrev.
  - destruct (PyStr.is_space a) eqn:Ea.
    + destruct cur as [w|].
      * constructor; [now apply Hrev | now apply IH].
      * now apply IH.
    + apply IH. cbn [no_space]. rewrite Ea. split; [discriminate |].
      destruct cur as [w|]; cbn [default from_option id no_space negb andb];
        [apply Hcur | reflexivity].
Qed.

Lemma split_ws_fields s :
  Forall (fun t => t <> "" /\ no_space t = true) (PyStr.split_ws s).
Proof. now apply split_ws_go_fields. Qed.

(** Splitting at a separator, piece by piece. *)
Lemma split_on_nonempty c s : PyStr.split_on c s <> [].
Proof.
  destruct s as [|a s]; cbn [PyStr.split_on]; [discriminate |].
  destruct (Ascii.eqb a c); [discriminate |].
  destruct (PyStr.split_on c s); discriminate.
Qed.

Lemma split_on_without c s :
  contains c s = false -> PyStr.split_on c s = [s].
Proof.
  induction s as [|a s IH]; cbn [contains PyStr.split_on]; [reflexivity |].
  destruct (Ascii.eqb a c); [discriminate |]. cbn [orb]. intros H.
  now rewrite (IH H).
Qed.

Lemma split_on_first c a b :
  contains c a = false ->
  PyStr.split_on c (a +:+ String c b) = a :: PyStr.split_on c b.
Proof.
  induction a as [|x a IH]; cbn [contains]; intros H.
  - change ("" +:+ String c b) with (String c b). cbn [PyStr.split_on].
    now rewrite Ascii.eqb_refl.
  - change (String x a +:+ String c b) with (String x (a +:+ String c b)).
    cbn [PyStr.split_on].
    destruct (Ascii.eqb x c); [discriminate |]. cbn [orb] in H.
    now rewrite (IH H).
Qed.

(** X5: joining the fields of [s.split(c)] with [c] gives [s] back, so
    the list of directories [which] reads from PATH loses nothing of
    PATH. *)
Theorem split_on_join c s :
  PyStr.join (String c "") (PyStr.split_on c s) = s.
Proof.
  unfold PyStr.join.
  induction s as [|a s IH]; [reflexivity |]. cbn [PyStr.split_on].
  destruct (Ascii.eqb a c) eqn:E.
  - apply Ascii.eqb_eq in E. subst a.
    pose proof (split_on_nonempty c s) as Hne.
    destruct (PyStr.split_on c s) as [|p ps]; [now destruct Hne |].
    cbn [String.concat] in IH |- *.
    change ("" +:+ ?x) with x.
    change (String c "" +:+ ?x) with (String c x). now rewrite IH.
  - pose proof (split_on_nonempty c s) as Hne.
    destruct (PyStr.split_on c s) as [|p ps]; [now destruct Hne |].
    cbn [String.concat] in IH |- *.
    destruct ps as [|q ps].
    + now subst.
    + change (String a p +:+ ?x) with (String a (p +:+ x)). now rewrite IH.
Qed.

(** ** Version strings, line by line *)

Lemma Icecube2_asc_ver_skip pre ls :
  lacks_marker "iCEcube2" pre ->
  Icecube2_asc_ver (pre ++ ls) = Icecube2_asc_ver ls.
Proof.
  induction 1 as [|l pre Hl _ IH]; [reflexivity |].
  cbn [app Icecube2_asc_ver]. now rewrite Hl.
Qed.

Lemma radiant_ver_lines_skip pre ls :
  lacks_marker "ProductType" pre ->
  radiant_ver_lines (pre ++ ls) = radiant_ver_lines ls.
Proof.
  induction 1 as [|l pre Hl _ IH]; [reflexivity |].
  cbn [app radiant_ver_lines]. now rewrite Hl.
Qed.

(** X6: [Icecube2.asc_ver] looks at the first line that starts with
    'iCEcube2' only.  When that line has at least two white-space
    separated fields the result is its second field, unchanged by the
    final [strip]; when it has the marker as its only field the call
    raises [IndexError], whatever the lines after it are. *)
Theorem asc_ver_first_marker_line pre l post :
  lacks_marker "iCEcube2" pre ->
  PyStr.find_at_0 "iCEcube2" l = true ->
  (forall t v rest,
      PyStr.split_ws l = t :: v :: rest ->
      Icecube2_asc_ver (pre ++ l :: post) = inr v) /\
  (forall t,
      PyStr.split_ws l = [t] ->
      Icecube2_asc_ver (pre ++ l :: post) = inl IndexError).
Proof.
  intros Hpre Hl. rewrite (Icecube2_asc_ver_skip pre _ Hpre).
  cbn [Icecube2_asc_ver]. rewrite Hl. split.
  - intros t v rest E. rewrite E. cbn [item_1].
    pose proof (split_ws_fields l) as F. rewrite E in F.
    inversion F as [|? ? _ F']. inversion F' as [|? ? [_ Hv] _].
    now rewrite (strip_no_space v Hv).
  - intros t E. rewrite E. reflexivity.
Qed.

Lemma asc_ver_first_marker_line_witness :
  Icecube2_asc_ver [".comment"; "Lattice"; "iCEcube2   2017.08.27940  x";
                    "iCEcube2 other"]
    = inr "2017.08.27940" /\
  Icecube2_asc_ver [".comment"; "iCEcube2"; "iCEcube2 2017.08.27940"]
    = inl IndexError.
Proof.
  split.
  - destruct (asc_ver_first_marker_line [".comment"; "Lattice"]
                "iCEcube2   2017.08.27940  x" ["iCEcube2 other"])
      as [H _]; [repeat constructor | reflexivity |].
    apply (H "iCEcube2" "2017.08.27940" ["x"]). reflexivity.
  - destruct (asc_ver_first_marker_line [".comment"] "iCEcube2"
                ["iCEcube2 2017.08.27940"])
      as [_ H]; [repeat constructor | reflexivity |].
    apply (H "iCEcube2"). reflexivity.
Defined.

(** A no-break space (U+00A0) separates fields like any white space. *)
Example asc_ver_no_break_space :
  Icecube2_asc_ver ["iCEcube2" +:+ String (ascii_of_nat 160) "2017.08"]
  = inr "2017.08".
Proof. vm_compute. reflexivity. Qed.

(** X7: as shipped, [versions] never returns a mapping, because the
    name [yosys_ver] is not bound in the module.  [Radiant.versions]
    raises [NameError] before [ispsys.ini] is read, whatever the host.
    [Icecube2.versions] fails on every host: with [NameError] whenever
    its [try] block completes (with [my.asc] missing, or with a second
    field on the first 'iCEcube2' line), and with the error of the [try]
    block otherwise. *)
Theorem versions_never_return self w :
  Radiant_versions self w = (inl (NameError "yosys_ver"), w) /\
  (exists e, Icecube2_versions self w = (inl e, w)) /\
  (fs w !! (out_dir self +:+ "/my.asc") = None ->
   Icecube2_versions self w = (inl (NameError "yosys_ver"), w)) /\
  (forall x pre l post t v rest,
      fs w !! (out_dir self +:+ "/my.asc") = Some (File x (pre ++ l :: post)) ->
      lacks_marker "iCEcube2" pre ->
      PyStr.find_at_0 "iCEcube2" l = true ->
      PyStr.split_ws l = t :: v :: rest ->
      Icecube2_versions self w = (inl (NameError "yosys_ver"), w)).
Proof.
  split; [reflexivity | split; [| split]].
  - unfold Icecube2_versions, Icecube2_versions_asc,
      except_FileNotFoundError, bind, py_open, lift, yosys_ver, raise, ret.
    destruct (fs w !! (out_dir self +:+ "/my.asc")) as [[|x ls]|].
    + eexists; reflexivity.
    + destruct (Icecube2_asc_ver ls) as [[]|v]; eexists; reflexivity.
    + eexists; reflexivity.
  - intros Hf.
    unfold Icecube2_versions, Icecube2_versions_asc,
      except_FileNotFoundError, bind, py_open.
    rewrite Hf. reflexivity.
  - intros x pre l post t v rest Hf Hpre Hl E.
    destruct (asc_ver_first_marker_line pre l post Hpre Hl) as [Hv _].
    unfold Icecube2_versions, Icecube2_versions_asc,
      except_FileNotFoundError, bind, py_open, lift.
    rewrite Hf, (Hv t v rest E). reflexivity.
Qed.

Lemma versions_never_return_witness :
  let w := mkWorld {[ os_environ := ∅ ]} 0
             {[ "out/my.asc" := File false [".comment"; "iCEcube2 2017.08"] ]}
             [] in
  Icecube2_versions a_hx8k w = (inl (NameError "yosys_ver"), w) /\
  Icecube2_versions a_hx8k w0 = (inl (NameError "yosys_ver"), w0).
Proof.
  cbv zeta.
  match goal with |- Icecube2_versions _ ?w0 = _ /\ _ => set (w := w0) end.
  split.
  - apply (proj2 (proj2 (proj2 (versions_never_return a_hx8k w)))
             false [".comment"] "iCEcube2 2017.08" [] "iCEcube2" "2017.08" []);
      [reflexivity | repeat constructor | reflexivity | reflexivity].
  - apply (proj1 (proj2 (proj2 (versions_never_return a_hx8k w0)))).
    reflexivity.
Defined.

(** X8: [Radiant.radiant_ver] looks at the first line that starts with
    'ProductType' only.  When that line is [key=value] with no further
    '=' the result is the value with the white space at both ends
    removed; when the line has no '=' the call raises [IndexError]. *)
Theorem radiant_ver_first_marker_line pre l post :
  lacks_marker "ProductType" pre ->
  PyStr.find_at_0 "ProductType" l = true ->
  (forall key value,
      l = key +:+ String "=" value ->
      contains "=" key = false -> contains "=" value = false ->
      radiant_ver_lines (pre ++ l :: post) = inr (PyStr.strip value)) /\
  (contains "=" l = false ->
   radiant_ver_lines (pre ++ l :: post) = inl IndexError).
Proof.
  intros Hpre Hl. rewrite (radiant_ver_lines_skip pre _ Hpre).
  cbn [radiant_ver_lines]. rewrite Hl. split.
  - intros key value -> Hk Hv.
    rewrite (split_on_first "=" key value Hk), (split_on_without "=" value Hv).
    reflexivity.
  - intros H. rewrite (split_on_without "=" l H). reflexivity.
Qed.

Lemma radiant_ver_first_marker_line_witness :
  radiant_ver_lines ["[Setup]"; "ProductType= 1.0.0.350.6 "; "ProductType=2"]
    = inr "1.0.0.350.6" /\
  radiant_ver_lines ["ProductType 1.0"; "ProductType=2"] = inl IndexError.
Proof.
  split.
  - destruct (radiant_ver_first_marker_line ["[Setup]"]
                "ProductType= 1.0.0.350.6 " ["ProductType=2"])
      as [H _]; [repeat constructor | reflexivity |].
    apply (H "ProductType" " 1.0.0.350.6 "); reflexivity.
  - destruct (radiant_ver_first_marker_line [] "ProductType 1.0"
                ["ProductType=2"])
      as [_ H]; [constructor | reflexivity |].
    apply H. reflexivity.
Defined.

(** [strip] removes a no-break space (U+00A0) and a next-line character
    (U+0085) like any white space. *)
Example radiant_ver_strips_latin1_space :
  radiant_ver_lines
    ["ProductType=" +:+ String (ascii_of_nat 160)
                          ("1.0" +:+ String (ascii_of_nat 133) "")]
  = inr "1.0".
Proof. vm_compute. reflexivity. Qed.

(** X9: [Radiant.radiant_ver] has no handler around the read of
    [ispsys.ini]: when the file is missing the call fails with the
    file-not-found error.  The handler of [Icecube2.versions] absorbs the
    file-not-found error only: a directory in the place of [my.asc] makes
    the call fail. *)
Theorem versions_unhandled_file_errors self w :
  (fs w !! (radiantdir self +:+ "/data/ispsys.ini") = None ->
   Radiant_radiant_ver self w
     = (inl (FileNotFoundError (radiantdir self +:+ "/data/ispsys.ini")),
        w)) /\
  (fs w !! (out_dir self +:+ "/my.asc") = Some Dir ->
   Icecube2_versions self w
     = (inl (IsADirectoryError (out_dir self +:+ "/my.asc")), w)).
Proof.
  split.
  - intros Hf. unfold Radiant_radiant_ver, bind, py_open.
    rewrite Hf. reflexivity.
  - intros Hf.
    unfold Icecube2_versions, Icecube2_versions_asc,
      except_FileNotFoundError, bind, py_open.
    rewrite Hf. reflexivity.
Qed.

Lemma versions_unhandled_file_errors_witness :
  Radiant_radiant_ver a_up5k w0
    = (inl (FileNotFoundError "/opt/rad/data/ispsys.ini"), w0) /\
  Icecube2_versions a_hx8k
      (mkWorld {[ os_environ := ∅ ]} 0 {[ "out/my.asc" := Dir ]} [])
    = (inl (IsADirectoryError "out/my.asc"),
       mkWorld {[ os_environ := ∅ ]} 0 {[ "out/my.asc" := Dir ]} []).
Proof.
  split.
  - apply (proj1 (versions_unhandled_file_errors a_up5k w0)). reflexivity.
  - apply (proj2 (versions_unhandled_file_errors a_hx8k _)). reflexivity.
Defined.

(** ** Constraint files *)

Lemma string_app_assoc (a b c : string) : (a +:+ b) +:+ c = a +:+ (b +:+ c).
Proof.
  induction a as [|x a IH]; [reflexivity |].
  change (String x a +:+ b) with (String x (a +:+ b)).
  change (String x (a +:+ b) +:+ c) with (String x ((a +:+ b) +:+ c)).
  change (String x a +:+ (b +:+ c)) with (String x (a +:+ (b +:+ c))).
  now rewrite IH.
Qed.

(** X10: [get_constraint] never raises and only reads the host: it
    returns the fixed path under the source directory exactly when that
    path exists, and [None] otherwise.  The paths for two different
    extensions are different, so the [pcf], [sdc] and [xdc] lookups read
    three different paths. *)
Theorem get_constraint_lookup g project family' device' package' toolchain' w :
  (forall ext,
      get_constraint g project family' device' package' toolchain' ext w =
      (inr (match fs w !! constraint_path g project family' device' package'
                                          toolchain' ext with
            | Some _ => Some (constraint_path g project family' device'
                                              package' toolchain' ext)
            | None => None
            end), w)) /\
  (forall ext1 ext2,
      constraint_path g project family' device' package' toolchain' ext1 =
      constraint_path g project family' device' package' toolchain' ext2 ->
      ext1 = ext2).
Proof.
  split.
  - intros ext. unfold get_constraint, bind, os_path_exists.
    fold (constraint_path g project family' device' package' toolchain' ext).
    now destruct (fs w !! _).
  - intros ext1 ext2 E. unfold constraint_path in E.
    repeat (apply (inj (String.app _)) in E). exact E.
Qed.

(** X11: the constraint path joins device and package without a
    separator, so the lookup depends on the two only through their
    concatenation: two targets that split the same text differently share
    their constraint files. *)
Theorem get_constraint_joins_device_package g project family' toolchain'
    ext d1 p1 d2 p2 w :
  d1 +:+ p1 = d2 +:+ p2 ->
  get_constraint g project family' d1 p1 toolchain' ext w =
  get_constraint g project family' d2 p2 toolchain' ext w.
Proof.
  intros E. unfold get_constraint.
  assert (forall r, d1 +:+ p1 +:+ r = d2 +:+ p2 +:+ r) as ->.
  { intros r. now rewrite <- !string_app_assoc, E. }
  reflexivity.
Qed.

Lemma get_constraint_joins_device_package_witness :
  get_constraint g0 "oneblink" "ice40" "hx8k" "ct256" "vpr" "pcf" w0 =
  get_constraint g0 "oneblink" "ice40" "hx8" "kct256" "vpr" "pcf" w0.
Proof.
  apply get_constraint_joins_device_package. reflexivity.
Defined.

(** ** The orchestrator after its entry assertions *)

Lemma entry_ok_passes family' device' package' toolchain' project seed' w :
  entry_ok family' device' package' toolchain' project seed' ->
  exists fam dev pkg tc prj,
    family' = Some fam /\ device' = Some dev /\ package' = Some pkg /\
    toolchain' = Some tc /\ project = Some prj /\
    run_entry family' device' package' toolchain' project seed' w
      = (inr (fam, dev, pkg, tc, prj), w).
Proof.
  intros (Hf & Hs & [dev ->] & [pkg ->] & [tc ->] & [prj ->]).
  assert (exists fam, family' = Some fam) as [fam ->]
      by (destruct Hf as [-> | ->]; eauto).
  exists fam, dev, pkg, tc, prj. repeat split.
  now apply run_entry_passes.
Qed.

(** X12: with arguments that pass the entry assertions, a toolchain name
    that is not in the registry makes [run] fail with [KeyError] before
    anything is constructed, looked up or spawned. *)
Theorem run_unknown_toolchain D g family' device' package' tc project
    out_dir' out_prefix verbose' strategy' seed' carry' build' w :
  entry_ok family' device' package' (Some tc) project seed' ->
  registry_lookup tc toolchains = None ->
  run D g family' device' package' (Some tc) project out_dir' out_prefix
      verbose' strategy' seed' carry' build' w
    = (inl (KeyError tc), w).
Proof.
  intros Hok Hreg.
  destruct (entry_ok_passes _ _ _ _ _ _ w Hok)
    as (fam & dev & pkg & tc' & prj & -> & -> & -> & E & -> & Hentry).
  injection E as <-.
  unfold run. unfold bind at 1. rewrite Hentry.
  unfold bind at 1. unfold construct. rewrite Hreg. reflexivity.
Qed.

Lemma run_unknown_toolchain_witness :
  run D0 g0 (Some "ice40") (Some "hx8k") (Some "ct256") (Some "radiant-yosys")
      (Some "oneblink") None None false None None None None w0
    = (inl (KeyError "radiant-yosys"), w0).
Proof.
  apply run_unknown_toolchain; [| reflexivity].
  repeat split; try (eexists; reflexivity); now left.
Defined.

(** X13: the registry entry is called with one positional argument, and
    the classes defined in this file take none: for the five registered
    iCEcube2 and Radiant toolchains [run] fails with [TypeError] at the
    construction of the adapter.  Nothing has been looked up or spawned
    by then. *)
Theorem run_in_file_toolchain_TypeError D g family' device' package' tc
    project out_dir' out_prefix verbose' strategy' seed' carry' build' w c :
  entry_ok family' device' package' (Some tc) project seed' ->
  registry_lookup tc toolchains = Some c ->
  in_file c = true ->
  run D g family' device' package' (Some tc) project out_dir' out_prefix
      verbose' strategy' seed' carry' build' w
    = (inl TypeError,
       mkWorld (heap w) (next w) (fs w) (trace w ++ [Construct tc])).
Proof.
  intros Hok Hreg Hc.
  destruct (entry_ok_passes _ _ _ _ _ _ w Hok)
    as (fam & dev & pkg & tc' & prj & -> & -> & -> & E & -> & Hentry).
  injection E as <-.
  unfold run. unfold bind at 1. rewrite Hentry.
  unfold bind at 1. unfold construct. rewrite Hreg.
  destruct c; [discriminate Hc | reflexivity | reflexivity].
Qed.

Lemma run_in_file_toolchain_TypeError_witness :
  run D0 g0 (Some "ice40") (Some "up5k") (Some "sg48") (Some "radiant-lse")
      (Some "oneblink") None None false None (Some 1%Z) None None w0
    = (inl TypeError,
       mkWorld (heap w0) (next w0) (fs w0) [Construct "radiant-lse"]).
Proof.
  apply (run_in_file_toolchain_TypeError D0 g0 _ _ _ "radiant-lse" _ _ _ _ _
           _ _ _ w0 (CRadiant RadiantLSE)); [| reflexivity | reflexivity].
  repeat split; try (eexists; reflexivity); [now left |].
  right. exists 1%Z. split; [reflexivity | lia].
Defined.

(** X14: for an imported toolchain, [run] reads the project description
    after the adapter has been constructed and the constraint files
    resolved: when [project/<name>.json] is missing, the run fails with
    the file-not-found error and the adapter is never run. *)
Theorem run_missing_project_file D g fam dev pkg tc prj out_dir' out_prefix
    verbose' strategy' seed' carry' build' w i t0 w1 cs :
  entry_ok (Some fam) (Some dev) (Some pkg) (Some tc) (Some prj) seed' ->
  registry_lookup tc toolchains = Some (CImported i) ->
  new_imported D i (root_dir g)
               (mkWorld (heap w) (next w) (fs w) (trace w ++ [Construct tc]))
    = (inr t0, w1) ->
  run_constraints D g prj fam dev pkg tc w1 = (inr cs, w1) ->
  fs w1 !! (project_dir g +:+ "/" +:+ prj +:+ ".json") = None ->
  run D g (Some fam) (Some dev) (Some pkg) (Some tc) (Some prj) out_dir'
      out_prefix verbose' strategy' seed' carry' build' w
    = (inl (FileNotFoundError (project_dir g +:+ "/" +:+ prj +:+ ".json")),
       w1).
Proof.
  intros Hok Hreg Hnew Hcs Hf.
  destruct (entry_ok_passes _ _ _ _ _ _ w Hok)
    as (fam' & dev' & pkg' & tc' & prj' & E1 & E2 & E3 & E4 & E5 & Hentry).
  injection E1 as <-. injection E2 as <-. injection E3 as <-.
  injection E4 as <-. injection E5 as <-.
  unfold run. unfold bind at 1. rewrite Hentry.
  unfold bind at 1. unfold construct. rewrite Hreg.
  unfold bind at 1. unfold emit at 1. unfold bind at 1. rewrite Hnew.
  cbn [ret]. unfold bind at 1. rewrite Hcs. destruct cs as [[p s] x].
  unfold bind at 1. unfold get_project, bind, py_open. rewrite Hf.
  reflexivity.
Qed.

Lemma run_missing_project_file_witness :
  run D0 g0 (Some "xc7") (Some "a35t") (Some "csg324") (Some "vivado")
      (Some "oneblink") None None false None None None None w_xdc_only
    = (inl (FileNotFoundError "/repo/project/oneblink.json"),
       mkWorld (heap w_xdc_only) (next w_xdc_only) (fs w_xdc_only)
               [Construct "vivado"]).
Proof.
  eapply (run_missing_project_file D0 g0 "xc7" "a35t" "csg324" "vivado"
            "oneblink" None None false None None None None w_xdc_only Vivado).
  - repeat split; try (eexists; reflexivity); [now right | now left].
  - reflexivity.
  - reflexivity.
  - vm_compute. reflexivity.
  - vm_compute. reflexivity.
Defined.

(** ** [env_ready], class by class *)

Lemma has_unmet_true (m : list (string * bool)) :
  has_unmet (map snd m) = true <-> exists k, (k, false) ∈ m.
Proof.
  destruct (has_unmet (map snd m)) eqn:E.
  - split; [intros _ | reflexivity].
    induction m as [|[k v] m IH]; [discriminate E |].
    cbn [map has_unmet snd] in E. destruct v; cbn [negb] in E.
    + destruct (IH E) as [k' Hk]. exists k'. apply elem_of_cons. now right.
    + exists k. apply elem_of_cons. now left.
  - split; [discriminate |]. intros [k Hk].
    apply (proj1 (has_unmet_false m) E k false Hk).
Qed.

Lemma env_ready_loop_prefix D g pre rest w :
  Forall (fun c => exists m, check_env_of D g c w = (inr m, w) /\
                             forall k v, (k, v) ∈ m -> v = true) pre ->
  env_ready_loop D g (pre ++ rest) w = env_ready_loop D g rest w.
Proof.
  induction 1 as [|c pre (m & Hm & Hall) _ IH]; [reflexivity |].
  cbn [app env_ready_loop]. unfold bind. rewrite Hm.
  apply has_unmet_false in Hall. now rewrite Hall.
Qed.

(** X15: [env_ready] stops at the first registered class, in the order
    of the registry, whose capability query does not return an all-true
    mapping.  If that query returns a mapping with a false value,
    [env_ready] returns False without querying the classes after it; if
    that query raises, [env_ready] raises the same error. *)
Theorem env_ready_stops_at_first_unmet D g w pre c post :
  map snd toolchains = (pre ++ c :: post)%list ->
  Forall (fun c' => exists m, check_env_of D g c' w = (inr m, w) /\
                              forall k v, (k, v) ∈ m -> v = true) pre ->
  (forall m k,
      check_env_of D g c w = (inr m, w) -> (k, false) ∈ m ->
      env_ready D g w = (inr false, w)) /\
  (forall e,
      check_env_of D g c w = (inl e, w) ->
      env_ready D g w = (inl e, w)).
Proof.
  intros Hreg Hpre. unfold env_ready. rewrite Hreg.
  rewrite (env_ready_loop_prefix D g pre (c :: post) w Hpre).
  cbn [env_ready_loop]. unfold bind. split.
  - intros m k Hm Hk. rewrite Hm.
    assert (has_unmet (map snd m) = true) as ->
        by (apply has_unmet_true; now exists k).
    reflexivity.
  - intros e He. now rewrite He.
Qed.

Lemma env_ready_stops_at_first_unmet_witness :
  env_ready D0 g0 w0 = (inr false, w0) /\
  env_ready D0 g0 w_nopath = (inl (KeyError "PATH"), w_nopath).
Proof.
  assert (forall w,
             Forall (fun c' => exists m,
                         check_env_of D0 g0 c' w = (inr m, w) /\
                         forall k v, (k, v) ∈ m -> v = true)
                    (map CImported [Vivado; VivadoYosys; Arachne; VPR; Nextpnr]))
    as Hpre.
  { intros w. cbn [map].
    repeat (constructor; [exists [("tool", true)]; split; [reflexivity |] |]);
      [.. | constructor];
      intros k v Hin; apply list_elem_of_singleton in Hin;
      now injection Hin as _ ->. }
  split.
  - destruct (env_ready_stops_at_first_unmet D0 g0 w0
                (map CImported [Vivado; VivadoYosys; Arachne; VPR; Nextpnr])
                (CIcecube2 Icecube2Synpro)
                (map snd (drop 6 toolchains)) eq_refl (Hpre w0)) as [H _].
    apply (H [("ICECUBEDIR", false); ("icetime", true)] "ICECUBEDIR").
    + vm_compute. reflexivity.
    + apply elem_of_cons. now left.
  - destruct (env_ready_stops_at_first_unmet D0 g0 w_nopath
                (map CImported [Vivado; VivadoYosys; Arachne; VPR; Nextpnr])
                (CIcecube2 Icecube2Synpro)
                (map snd (drop 6 toolchains)) eq_refl (Hpre w_nopath))
      as [_ H].
    apply H. vm_compute. reflexivity.
Defined.

(** ** Sorted listings *)

Lemma ltb_false_leb a b : String.ltb a b = false -> String.leb b a = true.
Proof.
  unfold String.ltb, String.leb. rewrite (String.compare_antisym a b).
  now destruct (String.compare b a).
Qed.

Lemma ltb_true_leb a b : String.ltb a b = true -> String.leb a b = true.
Proof.
  unfold String.ltb, String.leb. now destruct (String.compare a b).
Qed.

Lemma leb_trans a b c :
  String.leb a b = true -> String.leb b c = true -> String.leb a c = true.
Proof.
  intros H1 H2. apply Is_true_true.
  apply (@transitivity _ String.le _ a b c); now apply Is_true_true.
Qed.

Section Sorting.
Context {A : Type} (key : A -> string).

Lemma sorted_insert_perm x l : sorted_insert key x l ≡ₚ x :: l.
Proof.
  induction l as [|y l IH]; cbn [sorted_insert]; [reflexivity |].
  destruct (String.ltb (key y) (key x)); [| reflexivity].
  rewrite IH. apply Permutation_swap.
Qed.

Lemma py_sorted_perm l : py_sorted key l ≡ₚ l.
Proof.
  induction l as [|x l IH]; cbn [py_sorted]; [reflexivity |].
  now rewrite sorted_insert_perm, IH.
Qed.

Lemma sorted_insert_sorted x l :
  StronglySorted (key_le key) l ->
  StronglySorted (key_le key) (sorted_insert key x l).
Proof.
  induction 1 as [|y l Hs IH Hall]; cbn [sorted_insert].
  - repeat constructor.
  - destruct (String.ltb (key y) (key x)) eqn:E.
    + constructor; [exact IH |].
      rewrite sorted_insert_perm. constructor; [| exact Hall].
      now apply ltb_true_leb.
    + apply ltb_false_leb in E. constructor.
      * now constructor.
      * constructor; [exact E |].
        eapply Forall_impl; [exact Hall |].
        intros z Hz. unfold key_le in *. now apply (leb_trans _ (key y)).
Qed.

Lemma py_sorted_sorted l : StronglySorted (key_le key) (py_sorted key l).
Proof.
  induction l as [|x l IH]; cbn [py_sorted]; [constructor |].
  now apply sorted_insert_sorted.
Qed.
End Sorting.

Lemma registry_names_distinct : NoDup (map fst toolchains).
Proof.
  apply NoDup_ListNoDup, (NoDup_count_occ' string_dec).
  intros x Hin. cbn in Hin.
  repeat (destruct Hin as [<- | Hin]; [vm_compute; reflexivity |]).
  destruct Hin.
Qed.

(** X16: [get_toolchains] lists every registered name exactly once, in
    ascending order.  [get_seedable] lists, in ascending order and
    without repetition, exactly the registered names whose class declares
    itself seedable. *)
Theorem listings_sorted X :
  (get_toolchains ≡ₚ map fst toolchains /\
   StronglySorted (fun a b => String.leb a b = true) get_toolchains) /\
  (StronglySorted (fun a b => String.leb a b = true) (get_seedable X) /\
   NoDup (get_seedable X) /\
   forall n, n ∈ get_seedable X <->
             exists c, (n, c) ∈ toolchains /\ seedable X c = true).
Proof.
  split; [split | split; [| split]].
  - apply py_sorted_perm.
  - apply (py_sorted_sorted id).
  - unfold get_seedable.
    pose proof (py_sorted_sorted fst toolchains) as Hs.
    induction Hs as [|[n c] l Hs IH Hall]; [constructor |].
    rewrite filter_cons. cbn [snd].
    destruct (decide (seedable X c)) as [Hc | Hc].
    + cbn [map fst]. constructor; [exact IH |].
      apply Forall_fmap, Forall_forall. intros [n' c'] Hin.
      apply list_elem_of_filter in Hin as [_ Hin].
      rewrite Forall_forall in Hall. exact (Hall _ Hin).
    + exact IH.
  - unfold get_seedable.
    apply (NoDup_fmap_2_strong fst).
    + intros [n1 c1] [n2 c2] H1 H2 E. cbn in E. subst n2.
      apply list_elem_of_filter in H1 as [_ H1].
      apply list_elem_of_filter in H2 as [_ H2].
      rewrite py_sorted_perm in H1, H2.
      f_equal.
      pose proof registry_names_distinct as Hnd.
      apply list_elem_of_lookup in H1 as [i1 H1].
      apply list_elem_of_lookup in H2 as [i2 H2].
      assert (i1 = i2) as <-.
      { apply (NoDup_lookup _ _ _ n1 Hnd);
          rewrite list_lookup_fmap; [now rewrite H1 | now rewrite H2]. }
      congruence.
    + apply NoDup_filter.
      rewrite py_sorted_perm.
      apply (NoDup_fmap_1 fst). apply registry_names_distinct.
  - intros n. unfold get_seedable.
    rewrite list_elem_of_fmap. split.
    + intros ([n' c] & -> & Hin).
      apply list_elem_of_filter in Hin as [Hc Hin].
      rewrite py_sorted_perm in Hin. exists c. split; [exact Hin |].
      cbn in Hc. now apply Is_true_true.
    + intros (c & Hin & Hc). exists (n, c). split; [reflexivity |].
      apply list_elem_of_filter. split.
      * cbn. now apply Is_true_true.
      * now rewrite py_sorted_perm.
Qed.

(** ** The command-line functions *)

Lemma forC_print {A} (f : A -> string) (l : list A) con :
  forC l (fun x => print (f x)) con
    = (inr tt, mkConsole (host con) (stdout con ++ map f l)).
Proof.
  revert con. induction l as [|x l IH]; intros con; cbn [forC map].
  - unfold retC. rewrite app_nil_r. now destruct con.
  - unfold bindC, print. rewrite IH. cbn [host stdout].
    now rewrite <- app_assoc.
Qed.

(** Selecting the items of a dictionary by name gives the one item
    under that name, or nothing. *)
Lemma filter_by_name n (l : list (string * cls)) :
  NoDup (map fst l) ->
  filter (fun t => String.eqb (fst t) n) l =
  match registry_lookup n l with
  | Some c => [(n, c)]
  | None => []
  end.
Proof.
  induction l as [|[k c] l IH]; intros Hnd; [reflexivity |].
  cbn [map fst] in Hnd. apply NoDup_cons in Hnd as [Hk Hnd].
  rewrite filter_cons. cbn [registry_lookup fst].
  rewrite (String.eqb_sym n k).
  destruct (String.eqb k n) eqn:E.
  - apply String.eqb_eq in E. subst k.
    destruct (decide (Is_true true)) as [_ | F]; [| now destruct F].
    f_equal. rewrite (IH Hnd).
    destruct (registry_lookup n l) as [c' |] eqn:Hl; [| reflexivity].
    exfalso. apply Hk. clear -Hl.
    induction l as [|[k' c''] l IH]; [discriminate Hl |].
    cbn [registry_lookup] in Hl. cbn [map fst].
    destruct (String.eqb n k') eqn:E.
    + apply String.eqb_eq in E. subst k'. apply elem_of_cons. now left.
    + apply elem_of_cons. right. now apply IH.
  - destruct (decide (Is_true false)) as [F | _]; [now destruct F |].
    now apply IH.
Qed.

Lemma registry_lookup_truthy n c :
  registry_lookup n toolchains = Some c -> PyStr.truthy n = true.
Proof. destruct n; [discriminate | reflexivity]. Qed.

(** X17: [check_env(to_check)] with a non-empty name that is not in the
    registry raises [TypeError] before anything is probed or printed.
    With a registered name it prints the name, queries the class under
    that name and no other, and prints one line [  key: True/False] for
    each requirement in the order of the mapping; if the query raises,
    the name has been printed and the error propagates. *)
Theorem check_env_one_toolchain D g n con :
  (PyStr.truthy n = true ->
   registry_lookup n toolchains = None ->
   check_env D g (Some n) con = (inl TypeError, con)) /\
  (forall c,
      registry_lookup n toolchains = Some c ->
      check_env D g (Some n) con =
      match check_env_of D g c (host con) with
      | (inr m, w') =>
          (inr tt,
           mkConsole w'
             (stdout con ++ n :: map (fun kv => "  " +:+ fst kv +:+ ": "
                                                +:+ str_bool (snd kv)) m))
      | (inl e, w') => (inl e, mkConsole w' (stdout con ++ [n]))
      end).
Proof.
  split.
  - intros Hn Hreg. unfold check_env. cbn [truthy_opt default from_option id].
    rewrite Hn, (filter_by_name n toolchains registry_names_distinct), Hreg.
    reflexivity.
  - intros c Hreg. unfold check_env. cbn [truthy_opt default from_option id].
    rewrite (registry_lookup_truthy n c Hreg).
    rewrite (filter_by_name n toolchains registry_names_distinct), Hreg.
    unfold bindC at 1. cbn [retC py_sorted sorted_insert forC].
    unfold bindC at 1. unfold bindC at 1. unfold print at 1.
    cbn [fst snd host stdout]. unfold bindC at 1. unfold liftC at 1.
    cbn [host stdout].
    destruct (check_env_of D g c (host con)) as [[e|m] w'].
    + reflexivity.
    + rewrite forC_print. cbn [host stdout retC].
      rewrite <- app_assoc. reflexivity.
Qed.

Lemma check_env_one_toolchain_witness :
  check_env D0 g0 (Some "radiant") (mkConsole w0 [])
    = (inl TypeError, mkConsole w0 []) /\
  check_env D0 g0 (Some "radiant-lse") (mkConsole w0 [])
    = (inr tt, mkConsole w0 ["radiant-lse"; "  RADIANTDIR: False";
                             "  iceunpack: False"; "  icetime: True"]) /\
  check_env D0 g0 (Some "radiant-lse") (mkConsole w_nopath [])
    = (inl (KeyError "PATH"), mkConsole w_nopath ["radiant-lse"]).
Proof.
  split; [| split].
  - apply (proj1 (check_env_one_toolchain D0 g0 "radiant" _)); reflexivity.
  - rewrite (proj2 (check_env_one_toolchain D0 g0 "radiant-lse" _)
               (CRadiant RadiantLSE) eq_refl).
    vm_compute. reflexivity.
  - rewrite (proj2 (check_env_one_toolchain D0 g0 "radiant-lse" _)
               (CRadiant RadiantLSE) eq_refl).
    vm_compute. reflexivity.
Defined.

Lemma argument_errors_nil args :
  argument_errors args = [] <->
  is_Some (arg_family args) /\ is_Some (arg_device args) /\
  is_Some (arg_package args) /\ is_Some (arg_toolchain args) /\
  is_Some (arg_project args).
Proof.
  unfold argument_errors.
  destruct (arg_family args), (arg_device args), (arg_package args),
    (arg_toolchain args), (arg_project args); cbn;
    (split; [intros H; try discriminate H; repeat split; eauto
            | intros (H1 & H2 & H3 & H4 & H5); try reflexivity;
              first [destruct H1 as [? H1]; discriminate H1
                    | destruct H2 as [? H2]; discriminate H2
                    | destruct H3 as [? H3]; discriminate H3
                    | destruct H4 as [? H4]; discriminate H4
                    | destruct H5 as [? H5]; discriminate H5]]).
Qed.

(** X18: in run mode, when one of family, device, package, toolchain or
    project is missing, [main] prints the usage text and one error line
    per missing argument, in that fixed order, and exits with status 1:
    [run] is not called and the host is untouched.  No message is
    produced exactly when all five are given. *)
Theorem main_reports_missing_arguments D g X args con :
  run_mode args ->
  (argument_errors args <> [] ->
   main D g X args con =
   (inl SystemExit_1,
    mkConsole (host con)
      (stdout con ++ usage_text X
         :: map (fun e => argv0 X +:+ ": error: " +:+ e)
                (argument_errors args)))) /\
  (argument_errors args = [] <->
   is_Some (arg_family args) /\ is_Some (arg_device args) /\
   is_Some (arg_package args) /\ is_Some (arg_toolchain args) /\
   is_Some (arg_project args)).
Proof.
  intros (F1 & F2 & F3 & F4). split; [| apply argument_errors_nil].
  intros Hne. unfold main. rewrite F1, F2, F3, F4.
  destruct (argument_errors args) as [|e es]; [now destruct Hne |].
  unfold bindC at 1. unfold bindC at 1. unfold print at 1.
  unfold bindC at 1. rewrite forC_print. cbn [host stdout raiseC].
  rewrite <- app_assoc. reflexivity.
Qed.

Lemma main_reports_missing_arguments_witness :
  main D0 g0 X0 (args0 None (Some "vpr") None None) (mkConsole w0 [])
  = (inl SystemExit_1,
     mkConsole w0 ["usage: fpgaperf.py [-h]";
                   "fpgaperf.py: error: --package argument required";
                   "fpgaperf.py: error: --project argument required"]).
Proof.
  apply (proj1 (main_reports_missing_arguments D0 g0 X0
                  (args0 None (Some "vpr") None None) (mkConsole w0 [])
                  (conj eq_refl (conj eq_refl (conj eq_refl eq_refl))))).
  discriminate.
Defined.

Lemma main_run_mode D g X args con :
  run_mode args -> argument_errors args = [] ->
  main D g X args con =
  (let+ seed' :=
     if truthy_opt (arg_seed args)
     then let+ n := liftC (lift (py_int X (default "" (arg_seed args)))) in
          retC (Some n)
     else retC None in
   liftC (run D g (arg_family args) (arg_device args) (arg_package args)
              (arg_toolchain args) (arg_project args)
              (arg_out_dir args) (arg_out_prefix args) (arg_verbose args)
              (arg_strategy args) seed' (arg_carry args) (arg_build args)))
    con.
Proof.
  intros (F1 & F2 & F3 & F4) E. unfold main. rewrite F1, F2, F3, F4, E.
  reflexivity.
Qed.

(** X19: in run mode with the five arguments given, [main] does not
    validate the family or the range of the seed itself: a family other
    than ice40 and xc7, or a seed that [int(s, 0)] reads as a number
    outside [1, 2^31 - 1] (such as 0), ends [main] with the assertion
    error of [run], with nothing printed and the host untouched.  A seed
    string that [int] rejects ends [main] with the error of [int] before
    [run] is called. *)
Theorem main_family_and_seed_unchecked D g X args con :
  run_mode args -> argument_errors args = [] ->
  (forall s e,
      arg_seed args = Some s -> PyStr.truthy s = true ->
      py_int X s = inl e ->
      main D g X args con = (inl e, con)) /\
  (forall s n,
      arg_seed args = Some s -> PyStr.truthy s = true ->
      py_int X s = inr n -> ~ (1 <= n <= 2 ^ 31 - 1)%Z ->
      main D g X args con = (inl AssertionError, con)) /\
  (~ family_ok (arg_family args) ->
   (arg_seed args = None \/ arg_seed args = Some "" \/
    exists s n, arg_seed args = Some s /\ py_int X s = inr n) ->
   main D g X args con = (inl AssertionError, con)).
Proof.
  intros Hm He. rewrite (main_run_mode D g X args con Hm He).
  split; [| split].
  - intros s e -> Hs Hp. cbn [truthy_opt default from_option id].
    rewrite Hs. unfold bindC, liftC, lift. rewrite Hp. now destruct con.
  - intros s n -> Hs Hp Hn. cbn [truthy_opt default from_option id].
    rewrite Hs. unfold bindC, liftC, lift. rewrite Hp. cbn [retC host stdout].
    assert (run D g (arg_family args) (arg_device args) (arg_package args)
                (arg_toolchain args) (arg_project args) (arg_out_dir args)
                (arg_out_prefix args) (arg_verbose args) (arg_strategy args)
                (Some n) (arg_carry args) (arg_build args) (host con)
            = (inl AssertionError, host con)) as ->.
    { apply run_rejected_at_entry, run_entry_rejects. do 5 right.
      intros [E | (n' & E & H)]; [discriminate E |].
      injection E as <-. now apply Hn. }
    now destruct con.
  - intros Hf Hseed.
    assert (forall seed',
               run D g (arg_family args) (arg_device args) (arg_package args)
                   (arg_toolchain args) (arg_project args) (arg_out_dir args)
                   (arg_out_prefix args) (arg_verbose args) (arg_strategy args)
                   seed' (arg_carry args) (arg_build args) (host con)
               = (inl AssertionError, host con)) as Hrun.
    { intros seed'. apply run_rejected_at_entry, run_entry_rejects.
      now left. }
    destruct Hseed as [-> | [-> | (s & n & -> & Hp)]].
    + cbn [truthy_opt]. unfold bindC, retC, liftC. rewrite Hrun.
      now destruct con.
    + cbn [truthy_opt PyStr.truthy]. unfold bindC, retC, liftC. rewrite Hrun.
      now destruct con.
    + cbn [truthy_opt default from_option id].
      destruct (PyStr.truthy s); unfold bindC, retC, liftC, lift;
        rewrite ?Hp; cbn [host stdout]; rewrite Hrun; now destruct con.
Qed.

Lemma main_family_and_seed_unchecked_witness :
  main D0 g0 X0 (args0 (Some "ct256") (Some "vpr") (Some "oneblink")
                       (Some "0")) (mkConsole w0 [])
    = (inl AssertionError, mkConsole w0 []) /\
  main D0 g0 X0 (args0 (Some "ct256") (Some "vpr") (Some "oneblink")
                       (Some "1e3")) (mkConsole w0 [])
    = (inl (Foreign "ValueError"), mkConsole w0 []).
Proof.
  pose proof (fun s =>
    main_family_and_seed_unchecked D0 g0 X0
      (args0 (Some "ct256") (Some "vpr") (Some "oneblink") (Some s))
      (mkConsole w0 [])
      (conj eq_refl (conj eq_refl (conj eq_refl eq_refl))) eq_refl) as H.
  split.
  - apply (proj1 (proj2 (H "0")) "0" 0%Z); try reflexivity. lia.
  - apply (proj1 (H "1e3") "1e3"); reflexivity.
Defined.

(** X20: once the arguments have been parsed, [main] in list-toolchains
    mode prints the ten registered names in ascending order and ends:
    from there on no other parsed argument is consulted, [run] is not
    called and the host is not touched.  (Building the parser, before
    that, calls [get_projects], which is outside this property.) *)
Theorem main_lists_toolchains D g X args con :
  arg_list_toolchains args = true ->
  main D g X args con =
  (inr tt,
   mkConsole (host con)
     (stdout con ++ ["arachne"; "icecube2-lse"; "icecube2-synpro";
                     "icecube2-yosys"; "nextpnr"; "radiant-lse";
                     "radiant-synpro"; "vivado"; "vivado-yosys"; "vpr"])).
Proof.
  intros F. unfold main, list_toolchains. rewrite F.
  rewrite (forC_print id). rewrite map_id. reflexivity.
Qed.

Lemma main_lists_toolchains_witness :
  main D0 g0 X0
       (mkArgs false None None None None None None true None true None true
               true None None None)
       (mkConsole w_nopath ["$ fpgaperf.py --list-toolchains"])
  = (inr tt,
     mkConsole w_nopath
       ["$ fpgaperf.py --list-toolchains"; "arachne"; "icecube2-lse";
        "icecube2-synpro"; "icecube2-yosys"; "nextpnr"; "radiant-lse";
        "radiant-synpro"; "vivado"; "vivado-yosys"; "vpr"]).
Proof. apply main_lists_toolchains. reflexivity. Defined.

(** ** [add_bool_arg] *)

Lemma dash_to_underscore_no_dash s :
  contains "-" (dash_to_underscore s) = false.
Proof.
  induction s as [|a s IH]; [reflexivity |].
  cbn [dash_to_underscore contains]. rewrite IH, orb_false_r.
  destruct (Ascii.eqb a "-") eqn:E; [reflexivity | exact E].
Qed.

Lemma remove_double_dash_id s :
  contains "-" s = false -> remove_double_dash s = s.
Proof.
  induction s as [|a s IH]; [reflexivity |]. cbn [contains].
  destruct (Ascii.eqb a "-") eqn:E; [discriminate |]. cbn [orb]. intros H.
  assert (remove_double_dash (String a s) = String a (remove_double_dash s))
    as ->.
  { destruct a as [[|] [|] [|] [|] [|] [|] [|] [|]];
      try reflexivity; discriminate E. }
  now rewrite (IH H).
Qed.

Lemma dash_to_underscore_id s :
  contains "-" s = false -> dash_to_underscore s = s.
Proof.
  induction s as [|a s IH]; [reflexivity |]. cbn [contains dash_to_underscore].
  destruct (Ascii.eqb a "-"); [discriminate |]. cbn [orb]. intros H.
  now rewrite (IH H).
Qed.

(** X21: the destination name that [add_bool_arg] derives from a flag
    never contains a dash.  For a flag ['--' + name] whose name has no
    dash, the destination is [name] and the negative flag is
    ['--no-' + name]. *)
Theorem add_bool_arg_destination :
  (forall yes_arg, contains "-" (fst (add_bool_arg_names yes_arg)) = false) /\
  (forall name,
      contains "-" name = false ->
      add_bool_arg_names ("--" +:+ name) = (name, "--no-" +:+ name)).
Proof.
  split.
  - intros yes_arg. apply dash_to_underscore_no_dash.
  - intros name H. unfold add_bool_arg_names.
    change ("--" +:+ name) with (String "-" (String "-" name)).
    cbn [remove_double_dash].
    now rewrite (remove_double_dash_id name H), (dash_to_underscore_id name H).
Qed.

Lemma add_bool_arg_destination_witness :
  add_bool_arg_names "--carry" = ("carry", "--no-carry").
Proof. apply (proj2 add_bool_arg_destination "carry"). reflexivity. Defined.
